(** * proxmox_vm_agent.py: a shallow embedding and its verified properties

    The agent is a chat client: it posts the conversation to a remote API,
    runs the shell commands the answer asks for and records the outcome in
    its conversation history.  Python values are modelled as they are in
    the program: [str] as a sequence of Unicode code points, parsed JSON as
    a tree of dicts, lists and scalars, exceptions by their class and their
    [str(e)] text.  The network, the subprocess layer and the console are
    the only sources of nondeterminism; they are the fields of a
    [Platform].  The calls the program makes to the outside are recorded,
    in order, in a trace.  The console is a UTF-8 one: it shows the
    program's own messages and the texts of exceptions, and [print] is
    modelled where it writes text the program was given (a command, a
    reply), which fails when the text holds a lone surrogate. *)

From Stdlib Require Import List ZArith NArith QArith Bool Ascii String Lia.
From Stdlib Require Import DecimalString.
Import ListNotations.

Set Implicit Arguments.

(** ** Python strings *)

(** A Python [str] is a sequence of code points. *)
Definition pystr := list N.

(** ASCII literals of the source. *)
Definition py (s : string) : pystr :=
  map N_of_ascii (list_ascii_of_string s).

Definition LF : pystr := [10%N].
Definition DQUOTE : pystr := [34%N].
Definition SQUOTE : pystr := [39%N].

(** The non-ASCII characters of the source's literals. *)
Definition CROSS_MARK : pystr := [0x274C%N].        (* U+274C *)
Definition CHECK_MARK : pystr := [0x2705%N].        (* U+2705 *)
Definition ALARM_CLOCK : pystr := [0x23F0%N].       (* U+23F0 *)
Definition FIRE : pystr := [0x1F525%N].             (* U+1F525 *)
Definition WRENCH : pystr := [0x1F527%N].           (* U+1F527 *)

Definition pystr_eqb (a b : pystr) : bool :=
  if list_eq_dec N.eq_dec a b then true else false.

(** [s.startswith(p)] *)
Fixpoint startswith (s p : pystr) {struct p} : bool :=
  match p, s with
  | [], _ => true
  | _ :: _, [] => false
  | c :: p', d :: s' => N.eqb c d && startswith s' p'
  end.

(** [str.isspace] on one code point: the characters [str.strip()] removes. *)
Definition isspace (c : N) : bool :=
  ((9 <=? c) && (c <=? 13) || (28 <=? c) && (c <=? 32)
   || (c =? 0x85) || (c =? 0xA0) || (c =? 0x1680)
   || (0x2000 <=? c) && (c <=? 0x200A)
   || (c =? 0x2028) || (c =? 0x2029) || (c =? 0x202F)
   || (c =? 0x205F) || (c =? 0x3000))%N.

Fixpoint lstrip (s : pystr) : pystr :=
  match s with
  | [] => []
  | c :: s' => if isspace c then lstrip s' else s
  end.

Definition rstrip (s : pystr) : pystr := rev (lstrip (rev s)).

(** [s.strip()] *)
Definition strip (s : pystr) : pystr := rstrip (lstrip s).

(** [sep.join(parts)] *)
Fixpoint join (sep : pystr) (parts : list pystr) : pystr :=
  match parts with
  | [] => []
  | [p] => p
  | p :: rest => p ++ sep ++ join sep rest
  end.

(** [str(n)] for an [int]. *)
Definition str_of_int (z : Z) : pystr :=
  py (NilZero.string_of_int (Z.to_int z)).

(** [print(s)] on a UTF-8 console: the text is encoded as a whole, which
    fails at the first surrogate code point with a [UnicodeEncodeError]
    (a [ValueError]); the error names the character, or the positions of
    the run of surrogates that starts there. *)
Definition is_surrogate (c : N) : bool := ((0xD800 <=? c) && (c <=? 0xDFFF))%N.

Fixpoint surrogates_from (s : pystr) : nat :=
  match s with
  | c :: s' => if is_surrogate c then S (surrogates_from s') else O
  | [] => O
  end.

Fixpoint first_surrogate (s : pystr) (pos : nat) : option (nat * N * nat) :=
  match s with
  | [] => None
  | c :: s' =>
      if is_surrogate c then Some (pos, c, surrogates_from s')
      else first_surrogate s' (S pos)
  end.

Definition hex_digit (n : N) : N := (if n <? 10 then 48 + n else 87 + n)%N.

Definition hex4 (c : N) : pystr :=
  [ hex_digit ((c / 4096) mod 16); hex_digit ((c / 256) mod 16);
    hex_digit ((c / 16) mod 16); hex_digit (c mod 16) ]%N.

(** ** Parsed JSON, as [json.load] and [response.json()] return it *)

#[local] Set Warnings "-register-all".

Inductive json : Type :=
| JNone
| JBool (b : bool)
| JInt (n : Z)
| JFloat (bits : N)
| JStr (s : pystr)
| JList (items : list json)
| JDict (entries : list (pystr * json)).

Definition dict := list (pystr * json).

Fixpoint dict_get (d : dict) (key : pystr) : option json :=
  match d with
  | [] => None
  | (k, v) :: d' => if pystr_eqb k key then Some v else dict_get d' key
  end.

(** [key in d] *)
Definition dict_contains (d : dict) (key : pystr) : bool :=
  match dict_get d key with Some _ => true | None => false end.

(** [v == "literal"] *)
Definition eq_str (v : json) (s : pystr) : bool :=
  match v with
  | JStr t => pystr_eqb t s
  | _ => false
  end.

(** ** Exceptions *)

Inductive exn_class : Type :=
| RequestException     (* requests.exceptions.RequestException and below *)
| TimeoutExpired       (* subprocess.TimeoutExpired *)
| KeyError
| TypeError
| OtherException       (* any other subclass of Exception *)
| KeyboardInterrupt
| OtherBaseException.  (* SystemExit and the like: not an Exception *)

Record exn : Type := mkExn { exn_class_of : exn_class; exn_str : pystr }.

(** [isinstance(e, Exception)] *)
Definition is_Exception (e : exn) : bool :=
  match exn_class_of e with
  | KeyboardInterrupt | OtherBaseException => false
  | _ => true
  end.

Definition is_RequestException (e : exn) : bool :=
  match exn_class_of e with RequestException => true | _ => false end.

Definition is_TimeoutExpired (e : exn) : bool :=
  match exn_class_of e with TimeoutExpired => true | _ => false end.

Definition is_KeyboardInterrupt (e : exn) : bool :=
  match exn_class_of e with KeyboardInterrupt => true | _ => false end.

Inductive result (A : Type) : Type :=
| Return (a : A)
| Raise (e : exn).
Arguments Return {A} a.
Arguments Raise {A} e.

(** The name of a value's type, as the interpreter's messages print it. *)
Definition type_name (v : json) : pystr :=
  match v with
  | JNone => py "NoneType"
  | JBool _ => py "bool"
  | JInt _ => py "int"
  | JFloat _ => py "float"
  | JStr _ => py "str"
  | JList _ => py "list"
  | JDict _ => py "dict"
  end.

(** [v[key]] for a [str] key. *)
Definition getitem (v : json) (key : pystr) : result json :=
  match v with
  | JDict d =>
      match dict_get d key with
      | Some x => Return x
      | None => Raise (mkExn KeyError (SQUOTE ++ key ++ SQUOTE))
      end
  | JStr _ =>
      Raise (mkExn TypeError (py "string indices must be integers, not 'str'"))
  | JList _ =>
      Raise (mkExn TypeError
               (py "list indices must be integers or slices, not str"))
  | _ =>
      Raise (mkExn TypeError
               (SQUOTE ++ type_name v ++ SQUOTE ++ py " object is not subscriptable"))
  end.

(** [for block in v]: the items the loop visits. *)
Definition iterate (v : json) : result (list json) :=
  match v with
  | JList items => Return items
  | JStr s => Return (map (fun c => JStr [c]) s)
  | JDict d => Return (map (fun kv => JStr (fst kv)) d)
  | _ =>
      Raise (mkExn TypeError
               (SQUOTE ++ type_name v ++ SQUOTE ++ py " object is not iterable"))
  end.

(** [v + s] for a [str] [s]. *)
Definition add_str (v : json) (s : pystr) : result pystr :=
  match v with
  | JStr t => Return (t ++ s)
  | JList _ =>
      Raise (mkExn TypeError
               (py "can only concatenate list (not " ++ DQUOTE ++ py "str"
                ++ DQUOTE ++ py ") to list"))
  | _ =>
      Raise (mkExn TypeError
               (py "unsupported operand type(s) for +: '" ++ type_name v
                ++ py "' and 'str'"))
  end.

(** [sub in s] for two strings. *)
Fixpoint is_substring (sub s : pystr) : bool :=
  startswith s sub
  || match s with
     | [] => false
     | _ :: s' => is_substring sub s'
     end.

(** [key in v] for a [str] key. *)
Definition contains (v : json) (key : pystr) : result bool :=
  match v with
  | JDict d => Return (dict_contains d key)
  | JList items => Return (existsb (fun item => eq_str item key) items)
  | JStr s => Return (is_substring key s)
  | _ =>
      Raise (mkExn TypeError
               (py "argument of type '" ++ type_name v ++ py "' is not iterable"))
  end.

Definition print (s : pystr) : result unit :=
  match first_surrogate s 0 with
  | None => Return tt
  | Some (start, c, more) =>
      Raise (mkExn OtherException
               (match more with
                | O =>
                    py "'utf-8' codec can't encode character '\u" ++ hex4 c
                    ++ py "' in position " ++ str_of_int (Z.of_nat start)
                | S _ =>
                    py "'utf-8' codec can't encode characters in position "
                    ++ str_of_int (Z.of_nat start) ++ py "-"
                    ++ str_of_int (Z.of_nat (start + more))
                end ++ py ": surrogates not allowed"))
  end.

(** ** The platform: network, subprocesses, console, builtins *)

(** What [requests.post] returns.  [raise_for_status] raises an [HTTPError]
    (a [RequestException]) exactly for the 4xx and 5xx status codes;
    [http_error_text] is the text of that error and [json_body] what
    [response.json()] returns, any JSON value, or raises. *)
Record Response : Type := mkResponse {
  status_code : Z;
  http_error_text : pystr;
  json_body : result json
}.

Definition raise_for_status (r : Response) : result unit :=
  if ((400 <=? status_code r) && (status_code r <? 600))%Z
  then Raise (mkExn RequestException (http_error_text r))
  else Return tt.

(** A child process that was launched: how long it runs and what it
    leaves.  With [text=True] the captured output is decoded once the
    process has ended: [decode_error] is the text of the
    [UnicodeDecodeError] (a [ValueError]) that raises when the bytes are
    not text, [stdout] and [stderr] are the decoded texts otherwise. *)
Record Process : Type := mkProcess {
  duration : Q;
  returncode : Z;
  stdout : pystr;
  stderr : pystr;
  decode_error : option pystr
}.

Class Platform : Type := {
  World : Type;
  (** [requests.post(url, headers=..., json=...)] *)
  requests_post :
    pystr -> list (pystr * pystr) -> json -> World -> result Response * World;
  (** launching [command] through the shell ([shell=True]) and waiting
      for it; a command that cannot be launched raises *)
  popen : json -> World -> result Process * World;
  (** [input(prompt)] *)
  input : pystr -> World -> result pystr * World;
  (** [repr(v)] *)
  repr : json -> pystr;
  (** [s.lower()] *)
  lower : pystr -> pystr
}.

(** [subprocess.run(command, shell=True, capture_output=True, text=True,
    timeout=t)]: the completed process, [TimeoutExpired] when the child
    runs longer than [t], or the decoding error when it ended in time and
    its output is not text.  The program never reads the text of
    [TimeoutExpired]. *)
Definition subprocess_run `{Platform} (command : json) (timeout : Q) (w : World)
  : result Process * World :=
  match popen command w with
  | (Return p, w') =>
      if Qle_bool (duration p) timeout
      then match decode_error p with
           | None => (Return p, w')
           | Some text => (Raise (mkExn OtherException text), w')
           end
      else (Raise (mkExn TimeoutExpired (py "Command timed out")), w')
  | (Raise e, w') => (Raise e, w')
  end.

(** [str(v)], as an f-string formats a value. *)
Definition str `{Platform} (v : json) : pystr :=
  match v with
  | JStr s => s
  | _ => repr v
  end.

(** ** The agent *)

Section Agent.

Context `{P : Platform}.

(** What the program does to the outside world, in order. *)
Inductive event : Type :=
| EvPost (url : pystr) (headers : list (pystr * pystr)) (payload : json)
| EvRun (command : json) (timeout : Q)
| EvInput (prompt : pystr).

(** The attributes [__init__] sets. *)
Record ProxmoxClaudeAgent : Type := mkAgent {
  api_key : pystr;
  api_url : pystr;
  headers : list (pystr * pystr);
  conversation_history : list json
}.

Definition init (key : pystr) : ProxmoxClaudeAgent :=
  {| api_key := key;
     api_url := py "https://api.anthropic.com/v1/messages";
     headers := [ (py "Content-Type", py "application/json");
                  (py "x-api-key", key);
                  (py "anthropic-version", py "2023-06-01") ];
     conversation_history := [] |}.

Record State : Type := mkState {
  self : ProxmoxClaudeAgent;
  world : World;
  trace : list event
}.

(** Computations that read and update the state and may raise; the state
    survives a raise. *)
Definition M (A : Type) : Type := State -> result A * State.

Definition ret {A} (a : A) : M A := fun st => (Return a, st).

Definition raise {A} (e : exn) : M A := fun st => (Raise e, st).

Definition bind {A B} (m : M A) (k : A -> M B) : M B :=
  fun st =>
    match m st with
    | (Return a, st') => k a st'
    | (Raise e, st') => (Raise e, st')
    end.

Definition lift {A} (r : result A) : M A := fun st => (r, st).

(** [try: body / except C1 as e: h1 / except C2 as e: h2 / ...]: the first
    clause whose class matches handles the exception; one that matches no
    clause goes on to the caller. *)
Definition clause (A : Type) : Type := ((exn -> bool) * (exn -> M A))%type.

Fixpoint dispatch {A} (clauses : list (clause A)) (e : exn) : option (M A) :=
  match clauses with
  | [] => None
  | (catches, handler) :: rest =>
      if catches e then Some (handler e) else dispatch rest e
  end.

Definition try_except {A} (body : M A) (clauses : list (clause A)) : M A :=
  fun st =>
    match body st with
    | (Return a, st') => (Return a, st')
    | (Raise e, st') =>
        match dispatch clauses e with
        | Some handler => handler st'
        | None => (Raise e, st')
        end
    end.

End Agent.

Declare Scope agent_scope.
Delimit Scope agent_scope with agent.
Notation "x <- m ;; k" := (bind m (fun x => k))
  (at level 100, m at next level, right associativity) : agent_scope.
Notation "m ;;; k" := (bind m (fun _ => k))
  (at level 100, right associativity) : agent_scope.

Section Operations.

Context `{P : Platform}.
Local Open Scope agent_scope.

(** *** Effects *)

Definition get_self : M ProxmoxClaudeAgent := fun st => (Return (self st), st).

Definition set_history (h : list json) : M unit :=
  fun st =>
    (Return tt,
     {| self := {| api_key := api_key (self st);
                   api_url := api_url (self st);
                   headers := headers (self st);
                   conversation_history := h |};
        world := world st;
        trace := trace st |}).

(** [self.conversation_history.append(turn)] *)
Definition history_append (turn : json) : M unit :=
  fun st => set_history (conversation_history (self st) ++ [turn]) st.

Definition emit (ev : event) : M unit :=
  fun st =>
    (Return tt,
     {| self := self st; world := world st; trace := trace st ++ [ev] |}).

Definition in_world {A} (f : World -> result A * World) : M A :=
  fun st =>
    let (r, w) := f (world st) in
    (r, {| self := self st; world := w; trace := trace st |}).

Definition do_post (url : pystr) (hs : list (pystr * pystr)) (payload : json)
  : M Response :=
  emit (EvPost url hs payload) ;;; in_world (requests_post url hs payload).

Definition do_run (command : json) (timeout : Q) : M Process :=
  emit (EvRun command timeout) ;;; in_world (subprocess_run command timeout).

Definition do_input (prompt : pystr) : M pystr :=
  emit (EvInput prompt) ;;; in_world (input prompt).

(** *** Turns of the conversation *)

Definition user_turn (message : pystr) : json :=
  JDict [(py "role", JStr (py "user")); (py "content", JStr message)].

Definition assistant_turn (text : pystr) : json :=
  JDict [(py "role", JStr (py "assistant")); (py "content", JStr text)].

Definition tool_result (tool_use_id : json) (content : pystr) : json :=
  JDict [(py "type", JStr (py "tool_result"));
         (py "tool_use_id", tool_use_id);
         (py "content", JStr content)].

Definition tool_result_turn (tool_use_id : json) (content : pystr) : json :=
  JDict [(py "role", JStr (py "user"));
         (py "content", JList [tool_result tool_use_id content])].

(** *** [send_message_to_claude] *)

Definition system_prompt : pystr :=
  join LF
    [ py "You are a Proxmox VM management assistant. You have access to the bash tool and should use it to help manage Proxmox VMs.";
      [];
      py "Key Proxmox commands you should know:";
      py "- pvesh get /nodes - list nodes";
      py "- pvesh get /nodes/{node}/qemu - list VMs on a node";
      py "- pvesh get /nodes/{node}/qemu/{vmid}/status/current - get VM status";
      py "- pvesh create /nodes/{node}/qemu/{vmid}/status/start - start VM";
      py "- pvesh create /nodes/{node}/qemu/{vmid}/status/stop - stop VM";
      py "- pvesh create /nodes/{node}/qemu/{vmid}/status/shutdown - shutdown VM";
      py "- pvesh create /nodes/{node}/qemu/{vmid}/status/reboot - reboot VM";
      py "- qm list - list all VMs";
      py "- qm status {vmid} - get VM status";
      py "- qm start {vmid} - start VM";
      py "- qm stop {vmid} - stop VM";
      py "- qm shutdown {vmid} - shutdown VM";
      py "- qm reboot {vmid} - reboot VM";
      py "- pct list - list containers";
      py "- pct status {vmid} - get container status";
      py "- pct start {vmid} - start container";
      py "- pct stop {vmid} - stop container";
      [];
      py "Guest Agent commands (for VMs/containers with Proxmox guest agent installed):";
      py "- qm guest exec {vmid} [username] -- {command} - execute command on VM";
      py "- qm guest passwd {vmid} {username} - set user password on VM";
      py "- pct exec {vmid} -- {command} - execute command on container";
      py "- pvesh create /nodes/{node}/qemu/{vmid}/agent/exec -- command="
        ++ DQUOTE ++ py "{command}" ++ DQUOTE ++ py " - execute via API";
      py "- pvesh get /nodes/{node}/qemu/{vmid}/agent/info - check if agent is running";
      py "- pvesh create /nodes/{node}/qemu/{vmid}/agent/shutdown - shutdown via agent";
      py "- pvesh create /nodes/{node}/qemu/{vmid}/agent/suspend-disk - suspend to disk";
      py "- pvesh create /nodes/{node}/qemu/{vmid}/agent/suspend-ram - suspend to RAM";
      [];
      py "Always use the bash tool to execute these commands and provide helpful, concise responses about VM management tasks." ].

Definition bash_tool : json :=
  JDict
    [ (py "name", JStr (py "bash"));
      (py "description", JStr (py "Execute bash commands on the Proxmox system"));
      (py "input_schema",
        JDict
          [ (py "type", JStr (py "object"));
            (py "properties",
              JDict
                [ (py "command",
                    JDict
                      [ (py "type", JStr (py "string"));
                        (py "description",
                          JStr (py "The bash command to execute")) ]) ]);
            (py "required", JList [JStr (py "command")]) ]) ].

(** The request body, built from the history as it is at the call. *)
Definition payload_of (history : list json) (message : pystr) : json :=
  JDict
    [ (py "model", JStr (py "claude-sonnet-4-20250514"));
      (py "max_tokens", JInt 2000);
      (py "system", JStr system_prompt);
      (py "messages", JList (history ++ [user_turn message]));
      (py "tools", JList [bash_tool]) ].

Definition send_message_to_claude (message : pystr) : M json :=
  agent <- get_self ;;
  let payload := payload_of (conversation_history agent) message in
  try_except
    (response <- do_post (api_url agent) (headers agent) payload ;;
     lift (raise_for_status response) ;;;
     lift (json_body response))
    [ (is_RequestException,
       fun e =>
         ret (JDict [(py "error",
                      JStr (py "API request failed: " ++ exn_str e))])) ].

(** *** [process_claude_response] *)

(** The body of the inner [try], with its two handlers. *)
Definition run_bash (block command : json) (result_text : pystr) : M pystr :=
  try_except
    (result <- do_run command 30 ;;
     id <- lift (getitem block (py "id")) ;;
     history_append
       (tool_result_turn id
          (py "Exit code: " ++ str_of_int (returncode result) ++ LF
           ++ py "Stdout: " ++ stdout result ++ LF
           ++ py "Stderr: " ++ stderr result)) ;;;
     if (returncode result =? 0)%Z
     then ret (result_text ++ CHECK_MARK ++ py " Command successful:" ++ LF
               ++ stdout result ++ LF)
     else ret (result_text ++ CROSS_MARK ++ py " Command failed (exit "
               ++ str_of_int (returncode result) ++ py "):" ++ LF
               ++ stderr result ++ LF))
    [ (is_TimeoutExpired,
       fun _ => ret (result_text ++ ALARM_CLOCK ++ py " Command timed out" ++ LF));
      (is_Exception,
       fun e => ret (result_text ++ CROSS_MARK ++ py " Error executing command: "
                     ++ exn_str e ++ LF)) ].

(** The line printed before a command is run. *)
Definition announcement (command : json) : pystr :=
  WRENCH ++ py " Executing: " ++ str command.

(** One round of [for block in content]. *)
Definition process_block (block : json) (result_text : pystr) : M pystr :=
  ty <- lift (getitem block (py "type")) ;;
  if eq_str ty (py "text") then
    text <- lift (getitem block (py "text")) ;;
    line <- lift (add_str text LF) ;;
    ret (result_text ++ line)
  else if eq_str ty (py "tool_use") then
    name <- lift (getitem block (py "name")) ;;
    if eq_str name (py "bash") then
      inp <- lift (getitem block (py "input")) ;;
      command <- lift (getitem inp (py "command")) ;;
      lift (print (announcement command)) ;;;
      run_bash block command result_text
    else ret result_text
  else ret result_text.

Fixpoint process_blocks (content : list json) (result_text : pystr) : M pystr :=
  match content with
  | [] => ret result_text
  | block :: rest =>
      result_text' <- process_block block result_text ;;
      process_blocks rest result_text'
  end.

Definition process_claude_response (response : json) : M pystr :=
  tagged <- lift (contains response (py "error")) ;;
  if (tagged : bool) then
    err <- lift (getitem response (py "error")) ;;
    ret (CROSS_MARK ++ py " Error: " ++ str err)
  else
    try_except
      (content <- lift (getitem response (py "content")) ;;
       blocks <- lift (iterate content) ;;
       result_text <- process_blocks blocks [] ;;
       ret (strip result_text))
      [ (is_Exception,
         fun e => ret (CROSS_MARK ++ py " Error processing response: "
                       ++ exn_str e)) ].

(** *** [chat] *)

Definition chat (message : pystr) : M pystr :=
  history_append (user_turn message) ;;;
  response <- send_message_to_claude message ;;
  result <- process_claude_response response ;;
  if negb (startswith result CROSS_MARK)
  then history_append (assistant_turn result) ;;; ret result
  else ret result.

(** *** [interactive_mode] *)

Inductive loop_ctl : Type := Continue | Break.

(** One round of [while True]. *)
Definition interactive_step : M loop_ctl :=
  try_except
    (line <- do_input (LF ++ FIRE ++ py " You: ") ;;
     let user_input := strip line in
     if pystr_eqb (lower user_input) (py "exit") then ret Break
     else if pystr_eqb (lower user_input) (py "clear") then
       set_history [] ;;; ret Continue
     else if pystr_eqb user_input [] then ret Continue
     else
       response <- chat user_input ;;
       lift (print response) ;;;
       ret Continue)
    [ (is_KeyboardInterrupt, fun _ => ret Break);
      (is_Exception, fun _ => ret Continue) ].

(** The loop, for at most [fuel] rounds; [None] when the loop is still
    running after them. *)
Fixpoint interactive_mode (fuel : nat) (st : State)
  : option (result unit) * State :=
  match fuel with
  | O => (None, st)
  | S fuel' =>
      match interactive_step st with
      | (Return Break, st') => (Some (Return tt), st')
      | (Return Continue, st') => interactive_mode fuel' st'
      | (Raise e, st') => (Some (Raise e), st')
      end
  end.

End Operations.

(** ** Configuration: [load_config] and [create_config] *)

(** What the two functions see of the machine: the configuration file
    [~/.config/claude-proxmox/config.json] ([None] when it does not exist),
    its directory, the variable [ANTHROPIC_API_KEY], and the failures the
    file operations meet. *)
Record Env : Type := mkEnv {
  config_file : option pystr;
  config_dir : bool;
  environ_key : option pystr;
  (** what [os.makedirs(config_dir, exist_ok=True)] raises, if it does *)
  makedirs_error : option exn;
  (** what writing the file raises, if it does, and the file it leaves *)
  write_error : option (exn * option pystr);
  (** what opening the file for reading raises, if it does *)
  read_error : option exn
}.

Definition config_of (key : pystr) : json := JDict [(py "api_key", JStr key)].

Section Config.

(** The [json] module: [json.dump(obj, f, indent=n)] writes
    [json_dumps obj n]; [json.load(f)] is [json_loads] of the text. *)
Variable json_dumps : json -> Z -> pystr.
Variable json_loads : pystr -> result json.

(** [load_config()]; Python's [None] is [JNone]. *)
Definition load_config (env : Env) : result json :=
  let fallback :=
    match environ_key env with
    | Some ((_ :: _) as key) => Return (config_of key)
    | _ => Return JNone
    end in
  match config_file env with
  | Some text =>
      let loaded :=
        match read_error env with
        | Some e => Raise e
        | None => json_loads text
        end in
      match loaded with
      | Return v => Return v
      | Raise e => if is_Exception e then fallback else Raise e
      end
  | None => fallback
  end.

(** [create_config()], [entered] being what [input] returns or raises. *)
Definition create_config (entered : result pystr) (env : Env)
  : result json * Env :=
  match entered with
  | Raise e => (Raise e, env)
  | Return line =>
      let key := strip line in
      match makedirs_error env with
      | Some e => (Raise e, env)
      | None =>
          let made (file : option pystr) :=
            {| config_file := file;
               config_dir := true;
               environ_key := environ_key env;
               makedirs_error := makedirs_error env;
               write_error := write_error env;
               read_error := read_error env |} in
          let config := config_of key in
          match write_error env with
          | None => (Return config, made (Some (json_dumps config 2)))
          | Some (e, remains) =>
              if is_Exception e then (Return JNone, made remains)
              else (Raise e, made remains)
          end
      end
  end.

End Config.

(** ** Vocabulary of the properties *)

Definition is_post (ev : event) : Prop :=
  match ev with EvPost _ _ _ => True | _ => False end.

Definition is_run (ev : event) : Prop :=
  match ev with EvRun _ _ => True | _ => False end.

Definition extends_text (acc t : pystr) : Prop := exists more, t = acc ++ more.

(** A content block [{"type": "text", "text": t, ...}]. *)
Definition text_block (block : json) (t : pystr) : Prop :=
  exists d, block = JDict d
            /\ dict_get d (py "type") = Some (JStr (py "text"))
            /\ dict_get d (py "text") = Some (JStr t).

(** A content block
    [{"type": "tool_use", "name": "bash", "id": id, "input": {"command": command, ...}, ...}]. *)
Definition bash_block (block : json) (id command : json) : Prop :=
  exists d inp, block = JDict d
            /\ dict_get d (py "type") = Some (JStr (py "tool_use"))
            /\ dict_get d (py "name") = Some (JStr (py "bash"))
            /\ dict_get d (py "id") = Some id
            /\ dict_get d (py "input") = Some (JDict inp)
            /\ dict_get inp (py "command") = Some command.

(** The turn's ["role"]. *)
Definition role (turn : json) : result json := getitem turn (py "role").

Definition is_tool_result_turn (turn : json) : Prop :=
  exists id content,
    turn = JDict [(py "role", JStr (py "user"));
                  (py "content",
                    JList [JDict [(py "type", JStr (py "tool_result"));
                                  (py "tool_use_id", id);
                                  (py "content", JStr content)]])].

(** The ["messages"] of a request body. *)
Definition messages_of (payload : json) : result json :=
  getitem payload (py "messages").

(** The commands run, in a trace. *)
Definition runs (tr : list event) : list json :=
  flat_map (fun ev => match ev with EvRun c _ => [c] | _ => [] end) tr.

(** The request bodies posted, in a trace. *)
Definition posted (tr : list event) : list json :=
  flat_map (fun ev => match ev with EvPost _ _ p => [p] | _ => [] end) tr.

Section Vocabulary.

Context `{P : Platform}.

Definition history (st : State) : list json := conversation_history (self st).

(** Every state [m] can reach has the history it started from, followed by
    turns that satisfy [Q], and the trace it started from, followed by
    events that satisfy [R]. *)
Definition appends {A} (Q : json -> Prop) (R : event -> Prop) (m : M A) : Prop :=
  forall st, exists added evs,
    history (snd (m st)) = history st ++ added /\ Forall Q added
    /\ trace (snd (m st)) = trace st ++ evs /\ Forall R evs.

(** The content of the tool result for a completed process. *)
Definition tool_result_content (p : Process) : pystr :=
  py "Exit code: " ++ str_of_int (returncode p) ++ LF
  ++ py "Stdout: " ++ stdout p ++ LF
  ++ py "Stderr: " ++ stderr p.

Definition with_history (st : State) (h : list json) (w : World)
  (tr : list event) : State :=
  {| self := {| api_key := api_key (self st);
                api_url := api_url (self st);
                headers := headers (self st);
                conversation_history := h |};
     world := w;
     trace := tr |}.

(** The [try] statement of [process_claude_response], for a response
    without an error tag. *)
Definition read_blocks (response : json) : M pystr :=
  try_except
    (bind (lift (getitem response (py "content"))) (fun content =>
     bind (lift (iterate content)) (fun blocks =>
     bind (process_blocks blocks []) (fun result_text =>
     ret (strip result_text)))))
    [ (is_Exception,
       fun e => ret (CROSS_MARK ++ py " Error processing response: "
                     ++ exn_str e)) ].

(** Every value [m] returns satisfies [Pr]. *)
Definition returns {A} (Pr : A -> Prop) (m : M A) : Prop :=
  forall st a st', m st = (Return a, st') -> Pr a.

(** No assistant turn among the turns appended from [st] to [st']: each
    of them has the role [user]. *)
Definition no_assistant_turn (st st' : State) : Prop :=
  exists added,
    history st' = history st ++ added
    /\ Forall (fun turn => role turn = Return (JStr (py "user"))) added.

(** A round that ends as an error: its result starts with the error
    marker, or it was cut short by an exception that is not an
    [Exception] (an interrupt). *)
Definition marked_as_error (r : result pystr) : Prop :=
  match r with
  | Return result => startswith result CROSS_MARK = true
  | Raise e => is_Exception e = false
  end.

End Vocabulary.

(** ** [main] *)

(** The truth value of a value, as [not config] tests it.  A float is
    false when it is [0.0] or [-0.0], its bits being those of IEEE 754
    binary64. *)
Definition truthy (v : json) : bool :=
  match v with
  | JNone => false
  | JBool b => b
  | JInt n => negb (n =? 0)%Z
  | JFloat bits => negb ((bits =? 0) || (bits =? 0x8000000000000000))%N
  | JStr s => match s with [] => false | _ :: _ => true end
  | JList items => match items with [] => false | _ :: _ => true end
  | JDict d => match d with [] => false | _ :: _ => true end
  end.

(** How a run of [main] ends.  [__init__] is annotated [api_key: str]: a
    configuration whose ["api_key"] is not a string is outside the model
    ([KeyNotStr]).  [Running] is the interactive loop still going on after
    the rounds the run was given. *)
Inductive main_end : Type :=
| Exited (r : result unit)
| Running
| KeyNotStr (key : json).

(** A run of [main]: how it ends, the machine it leaves, the calls it
    made, and the agent when one was created. *)
Record Run `{P : Platform} : Type := mkRun {
  ending : main_end;
  env_after : Env;
  world_after : World;
  events : list event;
  agent_after : option ProxmoxClaudeAgent
}.

Section Main.

Context `{P : Platform}.

Variable json_dumps : json -> Z -> pystr.
Variable json_loads : pystr -> result json.

Definition setup_prompt : pystr := py "Enter your Anthropic API key: ".

(** The branch [create_config(); return]. *)
Definition main_setup (env : Env) (w : World) : Run :=
  let (entered, w') := input setup_prompt w in
  let (created, env') := create_config json_dumps entered env in
  {| ending := Exited match created with
                      | Return _ => Return tt
                      | Raise e => Raise e
                      end;
     env_after := env';
     world_after := w';
     events := [EvInput setup_prompt];
     agent_after := None |}.

(** The rest of [main], once the agent is created: one round for the
    arguments joined by spaces, or the interactive loop. *)
Definition main_agent (fuel : nat) (argv : list pystr) (key : pystr)
  (env : Env) (w : World) : Run :=
  let st0 := {| self := init key; world := w; trace := [] |} in
  let finish (r : main_end) (st : State) :=
    {| ending := r;
       env_after := env;
       world_after := world st;
       events := trace st;
       agent_after := Some (self st) |} in
  match argv with
  | _ :: _ :: _ =>
      let command := join (py " ") (tl argv) in
      match chat command st0 with
      | (Return response, st) => finish (Exited (print response)) st
      | (Raise e, st) => finish (Exited (Raise e)) st
      end
  | _ =>
      match interactive_mode fuel st0 with
      | (Some r, st) => finish (Exited r) st
      | (None, st) => finish Running st
      end
  end.

(** [main()], for the arguments [argv] ([sys.argv], the program's name
    first) and at most [fuel] rounds of the interactive loop. *)
Definition main (fuel : nat) (argv : list pystr) (env : Env) (w : World)
  : Run :=
  let stop (r : main_end) :=
    {| ending := r;
       env_after := env;
       world_after := w;
       events := [];
       agent_after := None |} in
  let is_setup :=
    match argv with
    | _ :: first :: _ => pystr_eqb first (py "setup")
    | _ => false
    end in
  if is_setup then main_setup env w
  else
    match load_config json_loads env with
    | Raise e => stop (Exited (Raise e))
    | Return config =>
        if negb (truthy config) then stop (Exited (Return tt))
        else
          match contains config (py "api_key") with
          | Raise e => stop (Exited (Raise e))
          | Return false => stop (Exited (Return tt))
          | Return true =>
              match getitem config (py "api_key") with
              | Raise e => stop (Exited (Raise e))
              | Return (JStr key) => main_agent fuel argv key env w
              | Return key => stop (KeyNotStr key)
              end
          end
    end.

End Main.

(** ** More vocabulary *)

(** The machine without its configuration file. *)
Definition without_file (env : Env) : Env :=
  {| config_file := None;
     config_dir := config_dir env;
     environ_key := environ_key env;
     makedirs_error := makedirs_error env;
     write_error := write_error env;
     read_error := read_error env |}.

(** The machine once the directory is made, with [file] as its
    configuration file. *)
Definition with_file (env : Env) (file : option pystr) : Env :=
  {| config_file := file;
     config_dir := true;
     environ_key := environ_key env;
     makedirs_error := makedirs_error env;
     write_error := write_error env;
     read_error := read_error env |}.

(** The three kinds of turn the program writes. *)
Definition written_turn (turn : json) : Prop :=
  (exists message,
     turn = JDict [(py "role", JStr (py "user")); (py "content", JStr message)])
  \/ is_tool_result_turn turn
  \/ (exists text,
        turn = JDict [(py "role", JStr (py "assistant"));
                      (py "content", JStr text)]).

Section MoreVocabulary.

Context `{P : Platform}.

(** The agent's key, address and headers are those of [a]. *)
Definition same_credentials (a b : ProxmoxClaudeAgent) : Prop :=
  api_key b = api_key a /\ api_url b = api_url a /\ headers b = headers a.

(** [m] takes every state to one that [I] relates it to. *)
Definition preserves {A} (I : State -> State -> Prop) (m : M A) : Prop :=
  forall st, I st (snd (m st)).

(** A request posted to [url] with the headers [hs], or a call of another
    kind. *)
Definition posts_to (url : pystr) (hs : list (pystr * pystr)) (ev : event)
  : Prop :=
  match ev with
  | EvPost u h _ => u = url /\ h = hs
  | _ => True
  end.

(** The turns and the command runs a computation adds: at most [n] runs,
    and no more turns than runs. *)
Definition runs_at_most {A} (n : nat) (m : M A) : Prop :=
  forall st, exists added evs,
    history (snd (m st)) = history st ++ added
    /\ trace (snd (m st)) = trace st ++ evs
    /\ Forall is_run evs
    /\ (List.length added <= List.length evs <= n)%nat.

(** What a round of the loop does with an exception. *)
Definition caught (e : exn) : result loop_ctl :=
  if is_KeyboardInterrupt e then Return Break
  else if is_Exception e then Return Continue
  else Raise e.

(** The prompt of the interactive loop, and the state once a line has
    been asked for. *)
Definition user_prompt : pystr := LF ++ FIRE ++ py " You: ".

Definition after_input (st : State) (w : World) : State :=
  {| self := self st; world := w; trace := trace st ++ [EvInput user_prompt] |}.

(** The requests of a session go where its first state says, and the
    agent keeps its credentials. *)
Definition session_keeps (st st' : State) : Prop :=
  same_credentials (self st) (self st')
  /\ exists evs,
       trace st' = trace st ++ evs
       /\ Forall (posts_to (api_url (self st)) (headers (self st))) evs.

End MoreVocabulary.

(** ** A platform and a [json] module for worked examples *)

(** A world that answers from three scripts, one per kind of call. *)
Record Script : Type := mkScript {
  posts : list (result Response);
  procs : list (result Process);
  lines : list (result pystr)
}.

Definition ascii_lower (c : N) : N :=
  if ((65 <=? c) && (c <=? 90))%N then (c + 32)%N else c.

Definition scripted : Platform :=
  {| World := Script;
     requests_post := fun _ _ _ w =>
       match posts w with
       | r :: rest => (r, mkScript rest (procs w) (lines w))
       | [] => (Raise (mkExn RequestException (py "Connection refused")), w)
       end;
     popen := fun _ w =>
       match procs w with
       | r :: rest => (r, mkScript (posts w) rest (lines w))
       | [] => (Raise (mkExn OtherException (py "No such file or directory")), w)
       end;
     input := fun _ w =>
       match lines w with
       | r :: rest => (r, mkScript (posts w) (procs w) rest)
       | [] => (Raise (mkExn OtherException (py "EOF when reading a line")), w)
       end;
     repr := fun _ => py "<object>";
     lower := map ascii_lower |}.

Definition fresh (key : pystr) (w : Script) : @State scripted :=
  @mkState scripted (init key) w [].

(** Sample content blocks, responses and states. *)
Definition sample_text (t : string) : json :=
  JDict [(py "type", JStr (py "text")); (py "text", JStr (py t))].

Definition sample_bash (id command : string) : json :=
  JDict [(py "type", JStr (py "tool_use"));
         (py "id", JStr (py id));
         (py "name", JStr (py "bash"));
         (py "input", JDict [(py "command", JStr (py command))])].

Definition sample_body (content : list json) : dict :=
  [(py "role", JStr (py "assistant")); (py "content", JList content)].

Definition sample_ok (content : list json) : result Response :=
  Return (mkResponse 200 [] (Return (JDict (sample_body content)))).

(** A fresh agent in a world where the next request gets [post] and the
    next command [proc]. *)
Definition sample_state (post : list (result Response))
  (proc : list (result Process)) : @State scripted :=
  fresh (py "sk-1") (mkScript post proc []).

(** An agent with two turns of history, at the prompt, about to read
    [clear] and then [hi]. *)
Definition sample_session : @State scripted :=
  @mkState scripted
    {| api_key := py "sk-1";
       api_url := api_url (init (py "sk-1"));
       headers := headers (init (py "sk-1"));
       conversation_history :=
         [ JDict [(py "role", JStr (py "user"));
                  (py "content", JStr (py "list vms"))];
           JDict [(py "role", JStr (py "assistant"));
                  (py "content", JStr (py "There are none."))] ] |}
    (mkScript [sample_ok [sample_text "Hello"]] []
       [Return (py "clear"); Return (py "hi")])
    [].

(** Sample processes: [echo hi], a failing [ls], [sleep 60]. *)
Definition sample_done : Process := mkProcess 1 0 (py "hi" ++ LF) [] None.

Definition sample_failed : Process :=
  mkProcess 1 2 [] (py "ls: cannot access '/nope'" ++ LF) None.

Definition sample_slow : Process := mkProcess 60 0 [] [] None.

(** A process that ends at once with exit code 0 and writes the byte
    [0xff], which is not UTF-8. *)
Definition sample_binary : Process :=
  mkProcess 1 0 [] []
    (Some (py "'utf-8' codec can't decode byte 0xff in position 0: invalid start byte")).

Definition sample_unlaunched : exn := mkExn OtherException (py "Permission denied").

(** Sample exceptions: Ctrl-C, [sys.exit(1)], a failing [json()]. *)
Definition sample_interrupt : exn := mkExn KeyboardInterrupt [].

Definition sample_system_exit : exn := mkExn OtherBaseException (py "1").

Definition sample_value_error : exn :=
  mkExn OtherException (py "Expecting value: line 1 column 1 (char 0)").

(** A [bash] tool-use block whose command, [echo hi #] followed by the
    lone surrogate U+DC80, cannot be shown on the console. *)
Definition sample_bash_surrogate (id : string) : json :=
  JDict [(py "type", JStr (py "tool_use"));
         (py "id", JStr (py id));
         (py "name", JStr (py "bash"));
         (py "input",
           JDict [(py "command", JStr (py "echo hi #" ++ [0xDC80%N]))])].

(** A [bash] tool-use block that lacks its id. *)
Definition sample_bash_without_id (command : string) : json :=
  JDict [(py "type", JStr (py "tool_use"));
         (py "name", JStr (py "bash"));
         (py "input", JDict [(py "command", JStr (py command))])].

(** An agent at the prompt, about to read [script]. *)
Definition sample_prompt (post : list (result Response))
  (proc : list (result Process)) (script : list (result pystr))
  : @State scripted :=
  fresh (py "sk-1") (mkScript post proc script).

(** A machine whose configuration file holds [text], with [key] in the
    environment. *)
Definition sample_machine (text : option pystr) (key : option pystr) : Env :=
  {| config_file := text;
     config_dir := true;
     environ_key := key;
     makedirs_error := None;
     write_error := None;
     read_error := None |}.

(** The text [json.dump] writes for a one-entry dict of strings, and a
    reader of such texts. *)
Definition sample_escape (c : N) : pystr :=
  if (c =? 34)%N then py "\" ++ DQUOTE
  else if (c =? 92)%N then py "\\"
  else if (c =? 10)%N then py "\n"
  else [c].

Definition sample_dumps (v : json) (indent : Z) : pystr :=
  match v with
  | JDict [(k, JStr s)] =>
      py "{" ++ LF ++ repeat 32%N (Z.to_nat indent)
      ++ DQUOTE ++ flat_map sample_escape k ++ DQUOTE ++ py ": "
      ++ DQUOTE ++ flat_map sample_escape s ++ DQUOTE ++ LF ++ py "}"
  | _ => py "null"
  end.

Definition json_space (c : N) : bool :=
  ((c =? 32) || (c =? 9) || (c =? 10) || (c =? 13))%N.

Fixpoint skip_spaces (s : pystr) : pystr :=
  match s with
  | c :: s' => if json_space c then skip_spaces s' else s
  | [] => []
  end.

(** The characters up to the closing quote, unescaped, and what follows. *)
Fixpoint read_chars (s : pystr) (acc : pystr) : option (pystr * pystr) :=
  match s with
  | [] => None
  | 34%N :: rest => Some (acc, rest)
  | 92%N :: c :: rest =>
      if (c =? 110)%N then read_chars rest (acc ++ LF)
      else if ((c =? 34) || (c =? 92))%N then read_chars rest (acc ++ [c])
      else None
  | c :: rest => read_chars rest (acc ++ [c])
  end.

Definition read_string (s : pystr) : option (pystr * pystr) :=
  match skip_spaces s with
  | 34%N :: rest => read_chars rest []
  | _ => None
  end.

Definition expect (c : N) (s : pystr) : option pystr :=
  match skip_spaces s with
  | d :: rest => if (c =? d)%N then Some rest else None
  | [] => None
  end.

Definition sample_loads (text : pystr) : result json :=
  let parsed :=
    match expect 123 text with
    | Some s1 =>
        match read_string s1 with
        | Some (k, s2) =>
            match expect 58 s2 with
            | Some s3 =>
                match read_string s3 with
                | Some (v, s4) =>
                    match expect 125 s4 with
                    | Some s5 =>
                        match skip_spaces s5 with
                        | [] => Some (JDict [(k, JStr v)])
                        | _ => None
                        end
                    | None => None
                    end
                | None => None
                end
            | None => None
            end
        | None => None
        end
    | None => None
    end in
  match parsed with
  | Some v => Return v
  | None => Raise (mkExn OtherException (py "Expecting value"))
  end.

Definition sample_env : Env :=
  {| config_file := None;
     config_dir := false;
     environ_key := None;
     makedirs_error := None;
     write_error := None;
     read_error := None |}.

Unset Implicit Arguments.

(** ** Facts about strings *)

Lemma pystr_eqb_refl (s : pystr) : pystr_eqb s s = true.
Proof.
  unfold pystr_eqb. destruct (list_eq_dec N.eq_dec s s); congruence.
Qed.

Lemma pystr_eqb_eq (a b : pystr) : pystr_eqb a b = true <-> a = b.
Proof.
  unfold pystr_eqb. destruct (list_eq_dec N.eq_dec a b); split; congruence.
Qed.

Lemma lstrip_snoc_space (s : pystr) (c : N) :
  isspace c = true ->
  lstrip (s ++ [c]) = match lstrip s with [] => [] | _ :: _ => lstrip s ++ [c] end.
Proof.
  intros Hc. induction s as [|d s IH]; simpl.
  - now rewrite Hc.
  - destruct (isspace d); [exact IH | reflexivity].
Qed.

Lemma rstrip_snoc_space (s : pystr) (c : N) :
  isspace c = true -> rstrip (s ++ [c]) = rstrip s.
Proof.
  intros Hc. unfold rstrip. rewrite rev_app_distr. simpl. now rewrite Hc.
Qed.

Lemma strip_snoc_space (s : pystr) (c : N) :
  isspace c = true -> strip (s ++ [c]) = strip s.
Proof.
  intros Hc. unfold strip. rewrite lstrip_snoc_space by assumption.
  destruct (lstrip s) as [|d t] eqn:E; [reflexivity|].
  now apply rstrip_snoc_space.
Qed.

Lemma strip_app_LF (s : pystr) : strip (s ++ LF) = strip s.
Proof. now apply strip_snoc_space. Qed.

(** What the loop accumulates over text blocks is the joined text plus one
    final newline. *)
Lemma concat_lines_join (texts : list pystr) :
  texts <> [] ->
  List.concat (map (fun t => t ++ LF) texts) = join LF texts ++ LF.
Proof.
  induction texts as [|t rest IH]; [congruence|]. intros _.
  destruct rest as [|t' rest'].
  - simpl. now rewrite app_nil_r.
  - change (List.concat (map (fun t => t ++ LF) (t :: t' :: rest')))
      with ((t ++ LF) ++ List.concat (map (fun t => t ++ LF) (t' :: rest'))).
    rewrite IH by discriminate.
    change (join LF (t :: t' :: rest')) with (t ++ LF ++ join LF (t' :: rest')).
    now rewrite <- !app_assoc.
Qed.

Lemma strip_concat_lines (texts : list pystr) :
  strip (List.concat (map (fun t => t ++ LF) texts)) = strip (join LF texts).
Proof.
  destruct texts as [|t rest]; [reflexivity|].
  rewrite concat_lines_join by discriminate. apply strip_app_LF.
Qed.

(** A string that starts with a non-blank character keeps it under
    [strip], whatever follows. *)
Lemma lstrip_nonspace (c : N) (s : pystr) :
  isspace c = false -> lstrip (c :: s) = c :: s.
Proof. intros Hc. simpl. now rewrite Hc. Qed.

Lemma lstrip_app_nonspace (s t : pystr) (c : N) :
  isspace c = false -> exists u, lstrip (s ++ c :: t) = u ++ c :: t.
Proof.
  intros Hc. induction s as [|d s [u IH]]; simpl.
  - exists []. now rewrite Hc.
  - destruct (isspace d); [now exists u | now exists (d :: s)].
Qed.

Lemma rstrip_cons_nonspace (c : N) (s : pystr) :
  isspace c = false -> exists t, rstrip (c :: s) = c :: t.
Proof.
  intros Hc. unfold rstrip. simpl.
  destruct (lstrip_app_nonspace (rev s) [] c Hc) as [u H].
  rewrite H, rev_app_distr. simpl. eauto.
Qed.

Lemma strip_cons_nonspace (c : N) (s : pystr) :
  isspace c = false -> exists t, strip (c :: s) = c :: t.
Proof.
  intros Hc. unfold strip. rewrite lstrip_nonspace by assumption.
  now apply rstrip_cons_nonspace.
Qed.

Lemma startswith_app (p s : pystr) : startswith (p ++ s) p = true.
Proof.
  induction p as [|c p IH]; simpl; [reflexivity|].
  now rewrite N.eqb_refl, IH.
Qed.

(** ** Facts about the monad *)

Section MonadFacts.

Context `{P : Platform}.

Lemma dispatch_some {A} (clauses : list (clause A)) (e : exn) (h : M A) :
  dispatch clauses e = Some h ->
  exists c f, In (c, f) clauses /\ c e = true /\ h = f e.
Proof.
  induction clauses as [|[c f] rest IH]; simpl; [discriminate|].
  destruct (c e) eqn:Ec.
  - intros [= <-]. exists c, f. auto.
  - intros H. destruct (IH H) as (c' & f' & Hin & Hc & ->). exists c', f'. auto.
Qed.

Variables (Q : json -> Prop) (R : event -> Prop).

Lemma appends_nothing {A} (m : M A) :
  (forall st, history (snd (m st)) = history st) ->
  (forall st, trace (snd (m st)) = trace st) ->
  appends Q R m.
Proof.
  intros Hh Ht st. exists [], []. rewrite Hh, Ht, !app_nil_r. auto.
Qed.

Lemma appends_ret {A} (a : A) : appends Q R (ret a).
Proof. now apply appends_nothing. Qed.

Lemma appends_raise {A} (e : exn) : appends Q R (@raise P A e).
Proof. now apply appends_nothing. Qed.

Lemma appends_lift {A} (r : result A) : appends Q R (lift r).
Proof. now apply appends_nothing. Qed.

Lemma appends_get_self : appends Q R get_self.
Proof. now apply appends_nothing. Qed.

Lemma appends_in_world {A} (f : World -> result A * World) :
  appends Q R (in_world f).
Proof.
  apply appends_nothing; intros st; unfold in_world;
    now destruct (f (world st)).
Qed.

Lemma appends_seq {B} (st st1 : State) (x : B * State) added evs :
  history st1 = history st ++ added -> Forall Q added ->
  trace st1 = trace st ++ evs -> Forall R evs ->
  (exists added' evs',
     history (snd x) = history st1 ++ added' /\ Forall Q added'
     /\ trace (snd x) = trace st1 ++ evs' /\ Forall R evs') ->
  exists added' evs',
    history (snd x) = history st ++ added' /\ Forall Q added'
    /\ trace (snd x) = trace st ++ evs' /\ Forall R evs'.
Proof.
  intros Hh HQ Ht HR (added' & evs' & Hh' & HQ' & Ht' & HR').
  exists (added ++ added'), (evs ++ evs').
  rewrite Hh', Hh, Ht', Ht, !app_assoc.
  repeat split; auto using Forall_app; apply Forall_app; auto.
Qed.

Lemma appends_bind {A B} (m : M A) (k : A -> M B) :
  appends Q R m -> (forall a, appends Q R (k a)) -> appends Q R (bind m k).
Proof.
  intros Hm Hk st. unfold bind.
  destruct (Hm st) as (added & evs & Hh & HQ & Ht & HR).
  destruct (m st) as [[a|e] st1]; simpl in *.
  - eapply appends_seq; eauto. apply Hk.
  - exists added, evs. auto.
Qed.

Lemma appends_try_except {A} (body : M A) (clauses : list (clause A)) :
  appends Q R body ->
  (forall c f e, In (c, f) clauses -> appends Q R (f e)) ->
  appends Q R (try_except body clauses).
Proof.
  intros Hb Hc st. unfold try_except.
  destruct (Hb st) as (added & evs & Hh & HQ & Ht & HR).
  destruct (body st) as [[a|e] st1]; simpl in *.
  - exists added, evs. auto.
  - destruct (dispatch clauses e) as [h|] eqn:Ed.
    + destruct (dispatch_some _ _ _ Ed) as (c & f & Hin & _ & ->).
      eapply appends_seq; eauto. apply (Hc c f e Hin).
    + exists added, evs. auto.
Qed.

Lemma appends_emit (ev : event) : R ev -> appends Q R (emit ev).
Proof.
  intros HR st. exists [], [ev]. simpl. rewrite app_nil_r. auto.
Qed.

Lemma appends_history_append (turn : json) :
  Q turn -> appends Q R (history_append turn).
Proof.
  intros HQ st. exists [turn], []. simpl. rewrite app_nil_r. auto.
Qed.

End MonadFacts.

Lemma appends_weaken `{P : Platform} {A} (Q Q' : json -> Prop)
  (R R' : event -> Prop) (m : M A) :
  (forall t, Q t -> Q' t) -> (forall ev, R ev -> R' ev) ->
  appends Q R m -> appends Q' R' m.
Proof.
  intros HQ HR Hm st. destruct (Hm st) as (added & evs & Hh & Hall & Ht & Hevs).
  exists added, evs. repeat split; try assumption; eapply Forall_impl; eauto.
Qed.

(** ** What each operation appends to the history and to the trace *)

Section Appends.

Context `{P : Platform}.
Local Open Scope agent_scope.

Ltac appends_step :=
  match goal with
  | |- appends _ _ (bind _ _) => apply appends_bind; [|intros ?]
  | |- appends _ _ (ret _) => apply appends_ret
  | |- appends _ _ (lift _) => apply appends_lift
  | |- appends _ _ (emit _) => apply appends_emit; exact I
  | |- appends _ _ (in_world _) => apply appends_in_world
  | |- appends _ _ get_self => apply appends_get_self
  | |- appends _ _ (try_except _ _) =>
      apply appends_try_except;
      [| let Hin := fresh "Hin" in
         simpl; intros ? ? ? Hin;
         repeat (destruct Hin as [Hin|Hin]; [inversion Hin; subst; clear Hin|]);
         try contradiction ]
  | |- appends _ _ (if ?b then _ else _) => destruct b
  | |- appends _ _ (match ?x with _ => _ end) => destruct x
  end.

Lemma tool_result_turn_is (id : json) (content : pystr) :
  is_tool_result_turn (tool_result_turn id content).
Proof. now exists id, content. Qed.

Lemma appends_send (message : pystr) :
  appends (fun _ => False) is_post (send_message_to_claude message).
Proof.
  unfold send_message_to_claude, do_post. repeat appends_step.
Qed.

Lemma appends_run_bash (block command : json) (result_text : pystr) :
  appends is_tool_result_turn is_run (run_bash block command result_text).
Proof.
  unfold run_bash, do_run. repeat appends_step.
  apply appends_history_append, tool_result_turn_is.
Qed.

Lemma appends_process_block (block : json) (result_text : pystr) :
  appends is_tool_result_turn is_run (process_block block result_text).
Proof.
  unfold process_block. repeat appends_step. apply appends_run_bash.
Qed.

Lemma appends_process_blocks (content : list json) (result_text : pystr) :
  appends is_tool_result_turn is_run (process_blocks content result_text).
Proof.
  revert result_text. induction content as [|block rest IH]; intros; simpl.
  - apply appends_ret.
  - apply appends_bind; [apply appends_process_block | intros; apply IH].
Qed.

Lemma appends_process_claude_response (response : json) :
  appends is_tool_result_turn is_run (process_claude_response response).
Proof.
  unfold process_claude_response. repeat appends_step.
  apply appends_process_blocks.
Qed.

Lemma appends_chat (message : pystr) :
  appends (fun _ => True) (fun ev => is_post ev \/ is_run ev) (chat message).
Proof.
  unfold chat. repeat appends_step; try (now apply appends_history_append).
  - eapply appends_weaken; [| |apply appends_send]; simpl; tauto.
  - eapply appends_weaken; [| |apply appends_process_claude_response];
      simpl; tauto.
Qed.

End Appends.

(** ** The claims *)

Section Claims.

Context `{P : Platform}.
Local Open Scope agent_scope.

(** C7: the conversation history is append-only up to an explicit reset.
    A chat round and the processing of a response leave the history they
    start from in place and only add turns after it; sending a request
    leaves it as it is; one round of the interactive loop does the same,
    or, only when the line read is the [clear] command, leaves the empty
    history. *)
Theorem history_append_only_up_to_clear :
  (forall message st,
     exists added, history (snd (chat message st)) = history st ++ added)
  /\ (forall response st,
        exists added,
          history (snd (process_claude_response response st))
          = history st ++ added)
  /\ (forall message st,
        history (snd (send_message_to_claude message st)) = history st)
  /\ (forall st,
        (exists added, history (snd (interactive_step st)) = history st ++ added)
        \/ (history (snd (interactive_step st)) = []
            /\ exists line w,
                 input (LF ++ FIRE ++ py " You: ") (world st) = (Return line, w)
                 /\ lower (strip line) = py "clear")).
Proof.
  split; [|split; [|split]].
  - intros message st.
    destruct (appends_chat message st) as (added & _ & H & _). eauto.
  - intros response st.
    destruct (appends_process_claude_response response st) as (added & _ & H & _).
    eauto.
  - intros message st.
    destruct (appends_send message st) as (added & _ & H & HF & _).
    destruct added as [|t added]; [now rewrite app_nil_r in H|].
    now inversion HF.
  - intros st. unfold interactive_step, try_except, do_input, bind, emit, in_world.
    simpl.
    match goal with
    | |- context [input ?p (world st)] =>
        destruct (input p (world st)) as [[line|e] w] eqn:Ein
    end; simpl.
    + destruct (pystr_eqb (lower (strip line)) (py "exit")) eqn:Eexit; simpl.
      { left. exists []. now rewrite app_nil_r. }
      destruct (pystr_eqb (lower (strip line)) (py "clear")) eqn:Eclear; simpl.
      { right. split; [reflexivity|]. exists line, w. split; [reflexivity|].
        now apply pystr_eqb_eq. }
      destruct (pystr_eqb (strip line) []); simpl.
      { left. exists []. now rewrite app_nil_r. }
      left.
      match goal with
      | |- context [chat ?m ?s] =>
          destruct (appends_chat m s) as (added & _ & H & _);
          destruct (chat m s) as [[r|e] st']
      end; simpl in *.
      * unfold lift. destruct (print r) as [[]|e]; simpl;
          [exists added; exact H|].
        destruct (is_KeyboardInterrupt e); simpl; [eauto|].
        destruct (is_Exception e); simpl; eauto.
      * destruct (is_KeyboardInterrupt e); simpl; [eauto|].
        destruct (is_Exception e); simpl; eauto.
    + left. exists [].
      destruct (is_KeyboardInterrupt e); simpl; [now rewrite app_nil_r|].
      destruct (is_Exception e); simpl; now rewrite app_nil_r.
Qed.

Lemma process_untagged (response : dict) (st : State) :
  dict_get response (py "error") = None ->
  process_claude_response (JDict response) st = read_blocks (JDict response) st.
Proof.
  intros H. unfold process_claude_response, bind at 1. unfold lift at 1.
  unfold contains, dict_contains. now rewrite H.
Qed.

Lemma process_tagged (response : dict) (err : json) (st : State) :
  dict_get response (py "error") = Some err ->
  process_claude_response (JDict response) st
  = (Return (CROSS_MARK ++ py " Error: " ++ str err), st).
Proof.
  intros H. unfold process_claude_response, bind, lift, contains,
    dict_contains, getitem. now rewrite H.
Qed.

Lemma process_block_text (block : json) (t acc : pystr) (st : State) :
  text_block block t ->
  process_block block acc st = (Return (acc ++ t ++ LF), st).
Proof.
  intros (d & -> & Hty & Htext).
  unfold process_block, bind, lift, getitem. rewrite Hty. simpl.
  now rewrite Htext.
Qed.

Lemma process_blocks_text (blocks : list json) (texts : list pystr)
  (acc : pystr) (st : State) :
  Forall2 text_block blocks texts ->
  process_blocks blocks acc st
  = (Return (acc ++ List.concat (map (fun t => t ++ LF) texts)), st).
Proof.
  intros H. revert acc. induction H as [|block t blocks texts Hb _ IH]; intros acc.
  - simpl. now rewrite app_nil_r.
  - simpl. unfold bind. rewrite (process_block_text _ _ acc st Hb).
    rewrite IH. now rewrite <- app_assoc.
Qed.

(** C4: for a response without an error tag whose content is a list of
    text blocks, the display string is the blocks' texts joined by
    newlines, stripped; nothing else happens (the state is unchanged). *)
Theorem text_only_response_display (response : dict) (blocks : list json)
  (texts : list pystr) (st : State) :
  dict_get response (py "error") = None ->
  dict_get response (py "content") = Some (JList blocks) ->
  Forall2 text_block blocks texts ->
  process_claude_response (JDict response) st
  = (Return (strip (join LF texts)), st).
Proof.
  intros Herr Hcontent Hblocks.
  rewrite (process_untagged _ _ Herr). unfold read_blocks.
  unfold try_except, bind, lift, getitem. rewrite Hcontent. simpl.
  rewrite (process_blocks_text _ _ [] st Hblocks). simpl.
  now rewrite strip_concat_lines.
Qed.

(** What sending a request does to the state: one [EvPost] of the body
    built from the history, and whatever the network did to the world. *)
Lemma send_state (message : pystr) (st : State) :
  exists w,
    snd (send_message_to_claude message st)
    = {| self := self st;
         world := w;
         trace := trace st ++ [EvPost (api_url (self st)) (headers (self st))
                                 (payload_of (history st) message)] |}.
Proof.
  unfold send_message_to_claude, try_except, do_post, bind, get_self, emit,
    in_world, lift. simpl.
  match goal with
  | |- context [requests_post ?u ?h ?p (world st)] =>
      destruct (requests_post u h p (world st)) as [[r|e] w]
  end; simpl.
  - destruct (raise_for_status r) as [[]|e]; simpl.
    + destruct (json_body r) as [d|e]; simpl; [eauto|].
      destruct (is_RequestException e); simpl; eauto.
    + destruct (is_RequestException e); simpl; eauto.
  - destruct (is_RequestException e); simpl; eauto.
Qed.

(** C6: [send_message_to_claude] never lets a [RequestException] through.
    When [requests.post] raises one, the result is the error-tagged dict
    with the exception's text, and a response with a 4xx or 5xx status
    ends the same way, with the text of its [HTTPError]. *)
Theorem send_returns_error_dict (message : pystr) (st : State) :
  let posted_to :=
    requests_post (api_url (self st)) (headers (self st))
      (payload_of (history st) message) (world st) in
  (forall e, fst (send_message_to_claude message st) = Raise e ->
             is_RequestException e = false)
  /\ (forall e w,
        posted_to = (Raise e, w) -> is_RequestException e = true ->
        fst (send_message_to_claude message st)
        = Return (JDict [(py "error",
                          JStr (py "API request failed: " ++ exn_str e))]))
  /\ (forall r w,
        posted_to = (Return r, w) ->
        (400 <= status_code r < 600)%Z ->
        fst (send_message_to_claude message st)
        = Return (JDict [(py "error",
                          JStr (py "API request failed: "
                                ++ http_error_text r))])).
Proof.
  unfold send_message_to_claude, try_except, do_post, bind, get_self, emit,
    in_world, lift, history. simpl.
  match goal with
  | |- context [requests_post ?u ?h ?p (world st)] =>
      destruct (requests_post u h p (world st)) as [[r|e] w]
  end; simpl.
  - split; [|split].
    + unfold raise_for_status.
      destruct ((400 <=? status_code r) && (status_code r <? 600))%Z; simpl.
      * discriminate.
      * destruct (json_body r) as [d|e']; simpl; [discriminate|].
        destruct (is_RequestException e') eqn:E; simpl; [discriminate|].
        now intros e [= <-].
    + discriminate.
    + intros r' w' [= <- <-] Hstatus. unfold raise_for_status.
      replace ((400 <=? status_code r) && (status_code r <? 600))%Z with true
        by (symmetry; apply andb_true_iff; split;
            [apply Z.leb_le | apply Z.ltb_lt]; lia).
      reflexivity.
  - split; [|split].
    + destruct (is_RequestException e) eqn:E; simpl; [discriminate|].
      now intros e' [= <-].
    + intros e' w' [= <- <-] He. now rewrite He.
    + discriminate.
Qed.

Lemma runs_app (tr tr' : list event) : runs (tr ++ tr') = runs tr ++ runs tr'.
Proof. apply flat_map_app. Qed.

(** C3: when sending returns an error-tagged result, the round's result
    starts with the error marker, the history gains the user turn and
    nothing else (no assistant turn), and no command is run. *)
Theorem transport_error_round (message : pystr) (st st2 : State)
  (response : dict) :
  send_message_to_claude message (snd (history_append (user_turn message) st))
  = (Return (JDict response), st2) ->
  dict_contains response (py "error") = true ->
  exists result,
    fst (chat message st) = Return result
    /\ startswith result CROSS_MARK = true
    /\ history (snd (chat message st)) = history st ++ [user_turn message]
    /\ runs (trace (snd (chat message st))) = runs (trace st).
Proof.
  intros Hsend Herr.
  pose proof (send_state message (snd (history_append (user_turn message) st)))
    as [w Hst].
  rewrite Hsend in Hst. simpl in Hst.
  unfold chat, bind.
  destruct (history_append (user_turn message) st) as [r1 st1] eqn:E1.
  unfold history_append, set_history in E1. injection E1 as <- <-.
  simpl in Hsend. unfold history in *. simpl. rewrite Hsend.
  unfold dict_contains in Herr.
  destruct (dict_get response (py "error")) as [err|] eqn:Hget; [|discriminate].
  rewrite (process_tagged _ _ _ Hget).
  simpl. eexists. split; [reflexivity|]. split; [reflexivity|].
  rewrite Hst. simpl. rewrite runs_app. simpl. now rewrite app_nil_r.
Qed.

(** *** Running a command *)

Lemma run_bash_completed (block command id : json) (acc : pystr) (st : State)
  (p : Process) (w : World) :
  popen command (world st) = (Return p, w) ->
  Qle_bool (duration p) 30 = true ->
  decode_error p = None ->
  getitem block (py "id") = Return id ->
  run_bash block command acc st
  = (Return
       (if (returncode p =? 0)%Z
        then acc ++ CHECK_MARK ++ py " Command successful:" ++ LF
             ++ stdout p ++ LF
        else acc ++ CROSS_MARK ++ py " Command failed (exit "
             ++ str_of_int (returncode p) ++ py "):" ++ LF ++ stderr p ++ LF),
     with_history st
       (history st ++ [tool_result_turn id (tool_result_content p)])
       w (trace st ++ [EvRun command 30])).
Proof.
  intros Hp Hd Hdec Hid.
  unfold run_bash, try_except, do_run, bind, emit, in_world, subprocess_run,
    lift. simpl. rewrite Hp, Hd, Hdec, Hid. simpl.
  now destruct (returncode p =? 0)%Z.
Qed.

Lemma run_bash_undecodable (block command : json) (acc : pystr) (st : State)
  (p : Process) (w : World) (text : pystr) :
  popen command (world st) = (Return p, w) ->
  Qle_bool (duration p) 30 = true ->
  decode_error p = Some text ->
  run_bash block command acc st
  = (Return (acc ++ CROSS_MARK ++ py " Error executing command: "
             ++ text ++ LF),
     {| self := self st; world := w; trace := trace st ++ [EvRun command 30] |}).
Proof.
  intros Hp Hd Hdec.
  unfold run_bash, try_except, do_run, bind, emit, in_world, subprocess_run,
    lift. simpl. now rewrite Hp, Hd, Hdec.
Qed.

Lemma run_bash_timed_out (block command : json) (acc : pystr) (st : State)
  (p : Process) (w : World) :
  popen command (world st) = (Return p, w) ->
  Qle_bool (duration p) 30 = false ->
  run_bash block command acc st
  = (Return (acc ++ ALARM_CLOCK ++ py " Command timed out" ++ LF),
     {| self := self st; world := w; trace := trace st ++ [EvRun command 30] |}).
Proof.
  intros Hp Hd.
  unfold run_bash, try_except, do_run, bind, emit, in_world, subprocess_run,
    lift. simpl. now rewrite Hp, Hd.
Qed.

Lemma run_bash_raised (block command : json) (acc : pystr) (st : State)
  (e : exn) (w : World) :
  popen command (world st) = (Raise e, w) ->
  run_bash block command acc st
  = (if is_TimeoutExpired e
     then Return (acc ++ ALARM_CLOCK ++ py " Command timed out" ++ LF)
     else if is_Exception e
     then Return (acc ++ CROSS_MARK ++ py " Error executing command: "
                  ++ exn_str e ++ LF)
     else Raise e,
     {| self := self st; world := w; trace := trace st ++ [EvRun command 30] |}).
Proof.
  intros Hp.
  unfold run_bash, try_except, do_run, bind, emit, in_world, subprocess_run,
    lift. simpl. rewrite Hp. simpl.
  destruct (is_TimeoutExpired e); [reflexivity|].
  now destruct (is_Exception e).
Qed.

Lemma Qle_bool_false (x y : Q) : (y < x)%Q -> Qle_bool x y = false.
Proof.
  intros H. destruct (Qle_bool x y) eqn:E; [|reflexivity].
  apply Qle_bool_iff in E. exfalso. eapply Qlt_not_le; eauto.
Qed.

Lemma getitem_raise_class (v : json) (key : pystr) (e : exn) :
  getitem v key = Raise e ->
  is_Exception e = true /\ is_TimeoutExpired e = false.
Proof.
  unfold getitem. destruct v; try (intros [= <-]; split; reflexivity).
  destruct (dict_get entries key); [discriminate|]. intros [= <-].
  split; reflexivity.
Qed.

(** C5, as the code has it: the four outcomes of a command that is run.
    For a tool-use block that carries an id, a process that ends within
    the 30 units with output that is text is reported as successful, with
    its stdout, when its exit code is 0, and as failed, with the code and
    its stderr, otherwise.  A process that runs longer is reported as
    timed out.  Every other exception of the run is reported as an
    execution error with its text: a command that cannot be launched,
    output that cannot be decoded (whatever the exit code), and the
    missing id of a block that has none, met once the process has ended.
    The four reports differ from one another whatever the outputs are. *)
Theorem command_outcome_policy (block command : json) (acc : pystr)
  (st : State) :
  (forall p w id,
     popen command (world st) = (Return p, w) ->
     (duration p <= 30)%Q -> decode_error p = None ->
     getitem block (py "id") = Return id ->
     returncode p = 0%Z ->
     fst (run_bash block command acc st)
     = Return (acc ++ CHECK_MARK ++ py " Command successful:" ++ LF
               ++ stdout p ++ LF))
  /\ (forall p w id,
        popen command (world st) = (Return p, w) ->
        (duration p <= 30)%Q -> decode_error p = None ->
        getitem block (py "id") = Return id ->
        returncode p <> 0%Z ->
        fst (run_bash block command acc st)
        = Return (acc ++ CROSS_MARK ++ py " Command failed (exit "
                  ++ str_of_int (returncode p) ++ py "):" ++ LF
                  ++ stderr p ++ LF))
  /\ (forall p w,
        popen command (world st) = (Return p, w) ->
        (30 < duration p)%Q ->
        fst (run_bash block command acc st)
        = Return (acc ++ ALARM_CLOCK ++ py " Command timed out" ++ LF))
  /\ (forall e w,
        popen command (world st) = (Raise e, w) ->
        is_Exception e = true -> is_TimeoutExpired e = false ->
        fst (run_bash block command acc st)
        = Return (acc ++ CROSS_MARK ++ py " Error executing command: "
                  ++ exn_str e ++ LF))
  /\ (forall p w text,
        popen command (world st) = (Return p, w) ->
        (duration p <= 30)%Q -> decode_error p = Some text ->
        fst (run_bash block command acc st)
        = Return (acc ++ CROSS_MARK ++ py " Error executing command: "
                  ++ text ++ LF))
  /\ (forall p w e,
        popen command (world st) = (Return p, w) ->
        (duration p <= 30)%Q -> decode_error p = None ->
        getitem block (py "id") = Raise e ->
        fst (run_bash block command acc st)
        = Return (acc ++ CROSS_MARK ++ py " Error executing command: "
                  ++ exn_str e ++ LF))
  /\ (forall out code err msg,
        let success :=
          acc ++ CHECK_MARK ++ py " Command successful:" ++ LF ++ out ++ LF in
        let failure :=
          acc ++ CROSS_MARK ++ py " Command failed (exit " ++ code ++ py "):"
          ++ LF ++ err ++ LF in
        let timed_out := acc ++ ALARM_CLOCK ++ py " Command timed out" ++ LF in
        let error :=
          acc ++ CROSS_MARK ++ py " Error executing command: " ++ msg ++ LF in
        success <> failure /\ success <> timed_out /\ success <> error
        /\ failure <> timed_out /\ failure <> error /\ timed_out <> error).
Proof.
  repeat split.
  - intros p w id Hp Hd Hdec Hid Hrc.
    rewrite (run_bash_completed _ _ _ acc st _ _ Hp
               (proj2 (Qle_bool_iff _ _) Hd) Hdec Hid).
    simpl. now rewrite Hrc.
  - intros p w id Hp Hd Hdec Hid Hrc.
    rewrite (run_bash_completed _ _ _ acc st _ _ Hp
               (proj2 (Qle_bool_iff _ _) Hd) Hdec Hid).
    simpl. apply Z.eqb_neq in Hrc. now rewrite Hrc.
  - intros p w Hp Hd.
    now rewrite (run_bash_timed_out block _ acc st _ _ Hp (Qle_bool_false _ _ Hd)).
  - intros e w Hp He Ht.
    rewrite (run_bash_raised block _ acc st _ _ Hp). now rewrite Ht, He.
  - intros p w text Hp Hd Hdec.
    now rewrite (run_bash_undecodable block _ acc st _ _ _ Hp
                   (proj2 (Qle_bool_iff _ _) Hd) Hdec).
  - intros p w e Hp Hd Hdec Hid. apply Qle_bool_iff in Hd.
    destruct (getitem_raise_class _ _ _ Hid) as [He Ht].
    unfold run_bash, try_except, do_run, bind, emit, in_world, subprocess_run,
      lift. simpl. rewrite Hp, Hd, Hdec, Hid. simpl. now rewrite Ht, He.
  - intros H. apply app_inv_head in H. discriminate.
  - intros H. apply app_inv_head in H. discriminate.
  - intros H. apply app_inv_head in H. discriminate.
  - intros H. apply app_inv_head in H. discriminate.
  - intros H. apply app_inv_head in H. discriminate.
  - intros H. apply app_inv_head in H. discriminate.
Qed.

Lemma process_block_bash (block id command : json) (acc : pystr) (st : State) :
  bash_block block id command ->
  process_block block acc st
  = match print (announcement command) with
    | Return _ => run_bash block command acc st
    | Raise e => (Raise e, st)
    end.
Proof.
  intros (d & inp & -> & Hty & Hname & _ & Hinp & Hcmd).
  unfold process_block, bind, lift, getitem. rewrite Hty. simpl.
  rewrite Hname. simpl. rewrite Hinp, Hcmd.
  now destruct (print (announcement command)) as [[]|e].
Qed.

Lemma process_block_announced (block id command : json) (acc : pystr)
  (st : State) :
  bash_block block id command ->
  print (announcement command) = Return tt ->
  process_block block acc st = run_bash block command acc st.
Proof.
  intros Hb Hprint. now rewrite (process_block_bash _ _ _ _ _ Hb), Hprint.
Qed.

Lemma bash_block_id (block id command : json) :
  bash_block block id command -> getitem block (py "id") = Return id.
Proof.
  intros (d & inp & -> & _ & _ & Hid & _). unfold getitem. now rewrite Hid.
Qed.

(** C2, as the code has it: one round of the loop over a bash tool-use
    block first prints the command.  When the console cannot show it,
    the round ends there: nothing is run and nothing recorded.  Otherwise
    the command is run; when the process ends within the time limit with
    output that is text, whatever its exit code, the history gains
    exactly one tool-result turn, with the block's id; when the command
    times out, cannot be launched, or leaves output that cannot be
    decoded, the history stays as it was. *)
Theorem tool_result_appended_on_completion (block id command : json)
  (acc : pystr) (st : State) :
  bash_block block id command ->
  (forall e,
     print (announcement command) = Raise e ->
     process_block block acc st = (Raise e, st))
  /\ (print (announcement command) = Return tt ->
      runs (trace (snd (process_block block acc st)))
      = runs (trace st) ++ [command]
      /\ (forall p w,
            popen command (world st) = (Return p, w) ->
            (duration p <= 30)%Q -> decode_error p = None ->
            history (snd (process_block block acc st))
            = history st ++ [tool_result_turn id (tool_result_content p)])
      /\ (forall p w,
            popen command (world st) = (Return p, w) -> (30 < duration p)%Q ->
            history (snd (process_block block acc st)) = history st)
      /\ (forall e w,
            popen command (world st) = (Raise e, w) ->
            history (snd (process_block block acc st)) = history st)
      /\ (forall p w e,
            popen command (world st) = (Return p, w) ->
            (duration p <= 30)%Q -> decode_error p = Some e ->
            history (snd (process_block block acc st)) = history st)).
Proof.
  intros Hb. split.
  { intros e He. now rewrite (process_block_bash _ _ _ _ _ Hb), He. }
  intros Hprint. rewrite (process_block_announced _ _ _ _ _ Hb Hprint).
  pose proof (bash_block_id _ _ _ Hb) as Hid.
  split; [|split; [|split; [|split]]].
  - destruct (popen command (world st)) as [[p|e] w] eqn:Hp.
    + destruct (Qle_bool (duration p) 30) eqn:Hd.
      * destruct (decode_error p) as [e|] eqn:Hdec.
        -- rewrite (run_bash_undecodable block _ acc st _ _ _ Hp Hd Hdec).
           simpl. now rewrite runs_app.
        -- rewrite (run_bash_completed _ _ _ acc st _ _ Hp Hd Hdec Hid). simpl.
           now rewrite runs_app.
      * rewrite (run_bash_timed_out block _ acc st _ _ Hp Hd). simpl.
        now rewrite runs_app.
    + rewrite (run_bash_raised block _ acc st _ _ Hp). simpl.
      now rewrite runs_app.
  - intros p w Hp Hd Hdec. apply Qle_bool_iff in Hd.
    now rewrite (run_bash_completed _ _ _ acc st _ _ Hp Hd Hdec Hid).
  - intros p w Hp Hd.
    now rewrite (run_bash_timed_out block _ acc st _ _ Hp (Qle_bool_false _ _ Hd)).
  - intros e w Hp. now rewrite (run_bash_raised block _ acc st _ _ Hp).
  - intros p w e Hp Hd Hdec. apply Qle_bool_iff in Hd.
    now rewrite (run_bash_undecodable block _ acc st _ _ _ Hp Hd Hdec).
Qed.

(** *** What a computation returns *)

Lemma returns_ret {A} (Pr : A -> Prop) (a : A) : Pr a -> returns Pr (ret a).
Proof. intros H st a' st' [= <- _]. exact H. Qed.

Lemma returns_bind {A B} (Pr : B -> Prop) (m : M A) (k : A -> M B) :
  (forall a, returns Pr (k a)) -> returns Pr (bind m k).
Proof.
  intros Hk st b st'. unfold bind.
  destruct (m st) as [[a|e] st1]; [apply Hk | discriminate].
Qed.

Lemma returns_try_except {A} (Pr : A -> Prop) (body : M A)
  (clauses : list (clause A)) :
  returns Pr body ->
  (forall c f e, In (c, f) clauses -> returns Pr (f e)) ->
  returns Pr (try_except body clauses).
Proof.
  intros Hb Hc st a st'. unfold try_except.
  destruct (body st) as [[a'|e] st1] eqn:E.
  - intros [= <- <-]. eapply Hb; eauto.
  - destruct (dispatch clauses e) as [h|] eqn:Ed; [|discriminate].
    destruct (dispatch_some _ _ _ Ed) as (c & f & Hin & _ & ->).
    apply (Hc c f e Hin).
Qed.

Lemma extends_text_app (acc more : pystr) : extends_text acc (acc ++ more).
Proof. now exists more. Qed.

Lemma extends_text_refl (acc : pystr) : extends_text acc acc.
Proof. exists []. now rewrite app_nil_r. Qed.

Lemma extends_text_trans (a b c : pystr) :
  extends_text a b -> extends_text b c -> extends_text a c.
Proof. intros [x ->] [y ->]. exists (x ++ y). now rewrite app_assoc. Qed.

Ltac returns_step :=
  match goal with
  | |- returns _ (bind _ _) => apply returns_bind; intros ?
  | |- returns _ (ret (?acc ++ _)) => apply returns_ret, extends_text_app
  | |- returns _ (ret _) => apply returns_ret, extends_text_refl
  | |- returns _ (try_except _ _) =>
      apply returns_try_except;
      [| let Hin := fresh "Hin" in
         simpl; intros ? ? ? Hin;
         repeat (destruct Hin as [Hin|Hin]; [inversion Hin; subst; clear Hin|]);
         try contradiction ]
  | |- returns _ (if ?b then _ else _) => destruct b
  end.

(** The loop only ever adds to the text it has accumulated. *)
Lemma process_block_extends (block : json) (acc : pystr) :
  returns (extends_text acc) (process_block block acc).
Proof. unfold process_block, run_bash. repeat returns_step. Qed.

Lemma process_blocks_extends (content : list json) (acc : pystr) :
  returns (extends_text acc) (process_blocks content acc).
Proof.
  revert acc. induction content as [|block rest IH]; intros acc; simpl.
  - apply returns_ret, extends_text_refl.
  - intros st t st'. unfold bind.
    destruct (process_block block acc st) as [[acc'|e] st1] eqn:E; [|discriminate].
    intros H. eapply extends_text_trans.
    + eapply process_block_extends; eauto.
    + eapply IH; eauto.
Qed.

(** *** The error marker and the assistant turn *)

Lemma startswith_cross_inv (s : pystr) :
  startswith s CROSS_MARK = true -> exists t, s = CROSS_MARK ++ t.
Proof.
  destruct s as [|c t]; [discriminate|].
  unfold CROSS_MARK. cbn [startswith]. rewrite andb_true_r. intros H.
  apply N.eqb_eq in H. subst c. now exists t.
Qed.

Lemma strip_keeps_cross (s : pystr) :
  startswith s CROSS_MARK = true -> startswith (strip s) CROSS_MARK = true.
Proof.
  intros H. destruct (startswith_cross_inv _ H) as [t ->].
  destruct (strip_cons_nonspace 0x274C%N t eq_refl) as [u Hu].
  change (CROSS_MARK ++ t) with (0x274C%N :: t). now rewrite Hu.
Qed.

Lemma extends_keeps_cross (acc t : pystr) :
  startswith acc CROSS_MARK = true -> extends_text acc t ->
  startswith t CROSS_MARK = true.
Proof.
  intros H [more ->]. destruct (startswith_cross_inv _ H) as [u ->].
  reflexivity.
Qed.

Lemma tool_result_turn_role (turn : json) :
  is_tool_result_turn turn -> role turn = Return (JStr (py "user")).
Proof. intros (id & content & ->). reflexivity. Qed.

(** The result of a response whose first block fails, or leaves a text
    that starts with the error marker. *)
Lemma first_block_cross (response : dict) (block : json) (rest : list json)
  (st : State) :
  dict_get response (py "error") = None ->
  dict_get response (py "content") = Some (JList (block :: rest)) ->
  match fst (process_block block [] st) with
  | Return acc => startswith acc CROSS_MARK = true
  | Raise _ => True
  end ->
  marked_as_error (fst (process_claude_response (JDict response) st)).
Proof.
  intros Herr Hcontent Hblock.
  rewrite (process_untagged _ _ Herr). unfold read_blocks.
  unfold try_except, bind, lift, getitem. rewrite Hcontent. simpl.
  unfold bind.
  destruct (process_block block [] st) as [[acc|e] st1]; simpl in Hblock.
  - destruct (process_blocks rest acc st1) as [[t|e] st2] eqn:E; simpl.
    + apply strip_keeps_cross. eapply extends_keeps_cross; [exact Hblock|].
      eapply process_blocks_extends; eauto.
    + destruct (is_Exception e) eqn:He; simpl; [reflexivity | exact He].
  - simpl. destruct (is_Exception e) eqn:He; simpl; [reflexivity | exact He].
Qed.

Lemma chat_unfold (message : pystr) (st : State) :
  chat message st
  = match send_message_to_claude message
            (snd (history_append (user_turn message) st)) with
    | (Return response, st2) =>
        match process_claude_response response st2 with
        | (Return result, st3) =>
            if startswith result CROSS_MARK
            then (Return result, st3)
            else (Return result,
                  snd (history_append (assistant_turn result) st3))
        | (Raise e, st3) => (Raise e, st3)
        end
    | (Raise e, st2) => (Raise e, st2)
    end.
Proof.
  unfold chat, bind.
  change (history_append (user_turn message) st)
    with (Return tt, snd (history_append (user_turn message) st)).
  cbv beta iota.
  destruct (send_message_to_claude message _) as [[response|e] st2];
    [|reflexivity].
  destruct (process_claude_response response st2) as [[result|e] st3];
    [|reflexivity].
  destruct (startswith result CROSS_MARK); reflexivity.
Qed.

Local Arguments startswith : simpl never.

Lemma send_history (message : pystr) (st st2 : State) (r : result json) :
  send_message_to_claude message st = (r, st2) -> history st2 = history st.
Proof.
  intros H. destruct (send_state message st) as [w Hw].
  rewrite H in Hw. simpl in Hw. now subst st2.
Qed.

Lemma chat_no_assistant_turn (message : pystr) (st : State) :
  match fst (chat message st) with
  | Return result =>
      if startswith result CROSS_MARK
      then no_assistant_turn st (snd (chat message st))
      else exists added,
             history (snd (chat message st))
             = history st ++ added ++ [assistant_turn result]
  | Raise _ => no_assistant_turn st (snd (chat message st))
  end.
Proof.
  rewrite chat_unfold. unfold no_assistant_turn.
  set (st1 := snd (history_append (user_turn message) st)).
  assert (H1 : history st1 = history st ++ [user_turn message]) by reflexivity.
  destruct (send_message_to_claude message st1) as [[response|e] st2] eqn:Hsend;
    pose proof (send_history _ _ _ _ Hsend) as H2.
  - destruct (appends_process_claude_response response st2)
      as (added & _ & H3 & Hall & _).
    assert (Hroles : Forall (fun turn => role turn = Return (JStr (py "user")))
                       (user_turn message :: added)).
    { constructor; [reflexivity|].
      eapply Forall_impl; [|exact Hall]. apply tool_result_turn_role. }
    destruct (process_claude_response response st2) as [[result|e] st3];
      simpl in *.
    + destruct (startswith result CROSS_MARK) eqn:E; simpl; rewrite E.
      * exists (user_turn message :: added). split; [|exact Hroles].
        rewrite H3, H2, H1. now rewrite <- app_assoc.
      * exists (user_turn message :: added).
        unfold history in *. simpl. rewrite H3, H2, H1.
        now rewrite <- !app_assoc.
    + exists (user_turn message :: added). split; [|exact Hroles].
      rewrite H3, H2, H1. now rewrite <- app_assoc.
  - simpl. exists [user_turn message]. split; [now rewrite H2|].
    constructor; [reflexivity | constructor].
Qed.

(** C10, as the code has it: whether a round appends an assistant turn
    depends only on whether its result starts with the error marker.  A
    round whose first block is a bash tool-use whose command ends with a
    non-zero exit code or cannot be launched has such a result, and
    appends none.  A command that times out is reported with the clock
    marker instead: a round whose only block is such a tool-use, with a
    command the console can show, returns a text that does not start with
    the error marker and appends the assistant turn. *)
Theorem assistant_turn_decided_by_marker (message : pystr) (st : State) :
  match fst (chat message st) with
  | Return result =>
      if startswith result CROSS_MARK
      then no_assistant_turn st (snd (chat message st))
      else exists added,
             history (snd (chat message st))
             = history st ++ added ++ [assistant_turn result]
  | Raise _ => no_assistant_turn st (snd (chat message st))
  end
  /\ (forall response st2 block rest id command,
        send_message_to_claude message
          (snd (history_append (user_turn message) st))
        = (Return (JDict response), st2) ->
        dict_get response (py "error") = None ->
        dict_get response (py "content") = Some (JList (block :: rest)) ->
        bash_block block id command ->
        (forall p w,
           popen command (world st2) = (Return p, w) ->
           (duration p <= 30)%Q -> returncode p <> 0%Z ->
           marked_as_error (fst (chat message st))
           /\ no_assistant_turn st (snd (chat message st)))
        /\ (forall e w,
              popen command (world st2) = (Raise e, w) ->
              is_Exception e = true -> is_TimeoutExpired e = false ->
              marked_as_error (fst (chat message st))
              /\ no_assistant_turn st (snd (chat message st)))
        /\ (forall p w,
              popen command (world st2) = (Return p, w) ->
              (30 < duration p)%Q -> rest = [] ->
              print (announcement command) = Return tt ->
              fst (chat message st)
              = Return (ALARM_CLOCK ++ py " Command timed out")
              /\ startswith (ALARM_CLOCK ++ py " Command timed out") CROSS_MARK
                 = false
              /\ history (snd (chat message st))
                 = history st
                   ++ [user_turn message;
                       assistant_turn (ALARM_CLOCK ++ py " Command timed out")])).
Proof.
  split; [apply chat_no_assistant_turn|].
  intros response st2 block rest id command Hsend Herr Hcontent Hb.
  pose proof (bash_block_id _ _ _ Hb) as Hid.
  assert (Hmarked :
    match fst (process_block block [] st2) with
    | Return acc => startswith acc CROSS_MARK = true
    | Raise _ => True
    end ->
    marked_as_error (fst (chat message st))
    /\ no_assistant_turn st (snd (chat message st))).
  { intros Hblock.
    pose proof (first_block_cross _ _ _ _ Herr Hcontent Hblock) as Hr.
    pose proof (chat_no_assistant_turn message st) as Hc.
    rewrite chat_unfold in *. rewrite Hsend in *.
    destruct (process_claude_response (JDict response) st2)
      as [[result|e] st4]; simpl in Hr.
    - rewrite Hr in *. simpl in *. rewrite Hr in Hc. auto.
    - simpl in *. auto. }
  split; [|split].
  - intros p w Hp Hd Hrc. apply Qle_bool_iff in Hd. apply Hmarked.
    rewrite (process_block_bash _ _ _ _ _ Hb).
    destruct (print (announcement command)) as [[]|e]; [|exact I].
    destruct (decode_error p) as [text|] eqn:Hdec.
    + now rewrite (run_bash_undecodable block _ [] st2 _ _ _ Hp Hd Hdec).
    + rewrite (run_bash_completed _ _ _ [] st2 _ _ Hp Hd Hdec Hid).
      apply Z.eqb_neq in Hrc. cbn [fst]. now rewrite Hrc.
  - intros e w Hp He Ht. apply Hmarked.
    rewrite (process_block_bash _ _ _ _ _ Hb).
    destruct (print (announcement command)) as [[]|e']; [|exact I].
    rewrite (run_bash_raised block _ [] st2 _ _ Hp), Ht, He. reflexivity.
  - intros p w Hp Hd -> Hprint.
    assert (Hproc :
      process_claude_response (JDict response) st2
      = (Return (ALARM_CLOCK ++ py " Command timed out"),
         {| self := self st2; world := w;
            trace := trace st2 ++ [EvRun command 30] |})).
    { rewrite (process_untagged _ _ Herr). unfold read_blocks.
      unfold try_except, bind, lift, getitem. rewrite Hcontent.
      cbn [iterate process_blocks]. unfold bind.
      rewrite (process_block_announced _ _ _ _ _ Hb Hprint).
      rewrite (run_bash_timed_out block _ [] st2 _ _ Hp (Qle_bool_false _ _ Hd)).
      reflexivity. }
    rewrite chat_unfold, Hsend, Hproc.
    change (startswith (ALARM_CLOCK ++ py " Command timed out") CROSS_MARK)
      with false.
    cbv iota. split; [reflexivity|]. split; [reflexivity|].
    unfold history. simpl.
    pose proof (send_history _ _ _ _ Hsend) as H2. unfold history in H2.
    rewrite H2. simpl. now rewrite <- app_assoc.
Qed.

(** Every round posts one request, and its messages are the history the
    round started from followed by the new user turn twice: once as
    [chat] appended it to the history, once more as
    [send_message_to_claude] adds it to the history it reads. *)
Lemma chat_posts_user_turn_twice (message : pystr) (st : State) :
  let payload := payload_of (history st ++ [user_turn message]) message in
  (exists evs,
     trace (snd (chat message st))
     = trace st ++ EvPost (api_url (self st)) (headers (self st)) payload :: evs
     /\ Forall is_run evs)
  /\ messages_of payload
     = Return (JList (history st ++ [user_turn message; user_turn message])).
Proof.
  split.
  - rewrite chat_unfold.
    set (st1 := snd (history_append (user_turn message) st)).
    destruct (send_state message st1) as [w Hst2].
    destruct (send_message_to_claude message st1) as [[response|e] st2];
      simpl in Hst2; subst st2.
    + match goal with
      | |- context [process_claude_response response ?s] =>
          destruct (appends_process_claude_response response s)
            as (_ & evs & _ & _ & Ht & Hevs);
          destruct (process_claude_response response s) as [[result|e] st3]
      end; simpl in Ht.
      * exists evs. split; [|exact Hevs].
        destruct (startswith result CROSS_MARK); simpl; rewrite Ht;
          now rewrite <- app_assoc.
      * exists evs. split; [|exact Hevs]. simpl. rewrite Ht.
        now rewrite <- app_assoc.
    + exists []. split; [reflexivity | constructor].
  - unfold messages_of, payload_of, getitem. simpl.
    now rewrite <- app_assoc.
Qed.

End Claims.

(** ** The configuration file *)

Section ConfigClaims.

Variable json_dumps : json -> Z -> pystr.
Variable json_loads : pystr -> result json.

(** C8: round trip.  The API key entered at the setup prompt is what
    [input().strip()] gives for the line typed, [strip line].  When the
    directory can be made, the file written and read back, and [json.load]
    reads what [json.dump] wrote, [load_config] after [create_config]
    returns the configuration [create_config] returned, and its [api_key]
    is that same key. *)
Theorem create_then_load_roundtrip (line : pystr) (env : Env) :
  makedirs_error env = None ->
  write_error env = None ->
  read_error env = None ->
  json_loads (json_dumps (config_of (strip line)) 2)
  = Return (config_of (strip line)) ->
  fst (create_config json_dumps (Return line) env)
  = Return (config_of (strip line))
  /\ load_config json_loads (snd (create_config json_dumps (Return line) env))
     = Return (config_of (strip line))
  /\ getitem (config_of (strip line)) (py "api_key") = Return (JStr (strip line)).
Proof.
  intros Hmk Hwr Hrd Hjson. unfold create_config. rewrite Hmk, Hwr.
  split; [reflexivity|]. split; [|reflexivity].
  unfold load_config. cbn [config_file read_error snd]. now rewrite Hrd, Hjson.
Qed.

(** C9: last write wins.  The keys entered are [strip line1] and
    [strip line2], as [input().strip()] gives them.  When the directory can
    be made, the file written and read back, and [json.load] reads what
    [json.dump] wrote, after two runs of [create_config] the file holds the
    second configuration only, [load_config] returns it, and the machine is
    as if the first run had not happened: the first key is retained
    nowhere. *)
Theorem second_setup_wins (line1 line2 : pystr) (env : Env) :
  makedirs_error env = None ->
  write_error env = None ->
  read_error env = None ->
  json_loads (json_dumps (config_of (strip line2)) 2)
  = Return (config_of (strip line2)) ->
  let env1 := snd (create_config json_dumps (Return line1) env) in
  let env2 := snd (create_config json_dumps (Return line2) env1) in
  load_config json_loads env2 = Return (config_of (strip line2))
  /\ config_file env2 = Some (json_dumps (config_of (strip line2)) 2)
  /\ env2 = snd (create_config json_dumps (Return line2) env).
Proof.
  intros Hmk Hwr Hrd Hjson. unfold create_config. rewrite Hmk, Hwr.
  cbn [snd config_file environ_key makedirs_error write_error read_error].
  split; [|split; reflexivity].
  unfold load_config. cbn [config_file read_error]. now rewrite Hrd, Hjson.
Qed.

End ConfigClaims.

(** ** Worked examples *)

(** C1, on the code: after [clear] the history is empty, and the request
    of the next round, for the line [hi], carries two messages, the user
    turn twice: [chat] appends the turn to the history and
    [send_message_to_claude] appends it again to the history it reads. *)
Theorem clear_then_round_posts_user_turn_twice :
  let st1 := snd (interactive_step sample_session) in
  let st2 := snd (interactive_step st1) in
  history sample_session <> []
  /\ history st1 = []
  /\ map messages_of (posted (trace st2))
     = [Return (JList [user_turn (py "hi"); user_turn (py "hi")])].
Proof.
  split; [discriminate|]. split; vm_compute; reflexivity.
Qed.

Lemma text_only_response_display_witness :
  process_claude_response
    (JDict (sample_body [sample_text "Two VMs are running.";
                         sample_text "  Done.  "]))
    (sample_state [] [])
  = (Return (strip (join LF [py "Two VMs are running."; py "  Done.  "])),
     sample_state [] []).
Proof.
  eapply (text_only_response_display (P := scripted)).
  - reflexivity.
  - reflexivity.
  - repeat constructor; eexists; repeat split; reflexivity.
Defined.

Lemma send_returns_error_dict_witness :
  fst (send_message_to_claude (py "hi") (sample_state [] []))
  = Return (JDict [(py "error",
                    JStr (py "API request failed: " ++ py "Connection refused"))])
  /\ fst (send_message_to_claude (py "hi")
            (sample_state
               [Return (mkResponse 529 (py "529 Server Error")
                          (Return (JDict [])))] []))
     = Return (JDict [(py "error",
                       JStr (py "API request failed: "
                             ++ py "529 Server Error"))]).
Proof.
  split.
  - apply (proj1 (proj2 (send_returns_error_dict (P := scripted) (py "hi")
                           (sample_state [] [])))
             (mkExn RequestException (py "Connection refused"))
             (mkScript [] [] []));
      reflexivity.
  - apply (proj2 (proj2 (send_returns_error_dict (P := scripted) (py "hi")
                           (sample_state
                              [Return (mkResponse 529 (py "529 Server Error")
                                         (Return (JDict [])))] [])))
             (mkResponse 529 (py "529 Server Error") (Return (JDict [])))
             (mkScript [] [] []));
      [reflexivity | simpl; lia].
Defined.

Lemma transport_error_round_witness :
  exists result,
    fst (chat (py "list vms") (sample_state [] [])) = Return result
    /\ startswith result CROSS_MARK = true
    /\ history (snd (chat (py "list vms") (sample_state [] [])))
       = history (sample_state [] []) ++ [user_turn (py "list vms")]
    /\ runs (trace (snd (chat (py "list vms") (sample_state [] []))))
       = runs (trace (sample_state [] [])).
Proof.
  eapply (transport_error_round (P := scripted)).
  - vm_compute. reflexivity.
  - reflexivity.
Defined.

(** C5 fails on the code for a process that ends in time with exit code
    0: when the block has no id, and when the output is not text, what is
    reported is an execution error, not the success with stdout. *)
Lemma exit_code_zero_reported_as_error :
  let command := JStr (py "echo hi") in
  returncode sample_done = 0%Z /\ returncode sample_binary = 0%Z
  /\ fst (run_bash (sample_bash_without_id "echo hi") command []
            (sample_state [] [Return sample_done]))
     = Return (CROSS_MARK ++ py " Error executing command: "
               ++ SQUOTE ++ py "id" ++ SQUOTE ++ LF)
  /\ fst (run_bash (sample_bash "toolu_1" "echo hi") command []
            (sample_state [] [Return sample_binary]))
     = Return (CROSS_MARK ++ py " Error executing command: "
               ++ py "'utf-8' codec can't decode byte 0xff in position 0: invalid start byte"
               ++ LF).
Proof.
  intros command. repeat split; vm_compute; reflexivity.
Qed.

Lemma command_outcome_policy_witness :
  let block := sample_bash "toolu_1" "echo hi" in
  let command := JStr (py "echo hi") in
  fst (run_bash block command [] (sample_state [] [Return sample_done]))
  = Return ([] ++ CHECK_MARK ++ py " Command successful:" ++ LF
            ++ (py "hi" ++ LF) ++ LF)
  /\ fst (run_bash block command [] (sample_state [] [Return sample_failed]))
     = Return ([] ++ CROSS_MARK ++ py " Command failed (exit " ++ py "2"
               ++ py "):" ++ LF ++ (py "ls: cannot access '/nope'" ++ LF) ++ LF)
  /\ fst (run_bash block command [] (sample_state [] [Return sample_slow]))
     = Return ([] ++ ALARM_CLOCK ++ py " Command timed out" ++ LF)
  /\ fst (run_bash block command [] (sample_state [] [Raise sample_unlaunched]))
     = Return ([] ++ CROSS_MARK ++ py " Error executing command: "
               ++ py "Permission denied" ++ LF)
  /\ fst (run_bash block command [] (sample_state [] [Return sample_binary]))
     = Return ([] ++ CROSS_MARK ++ py " Error executing command: "
               ++ py "'utf-8' codec can't decode byte 0xff in position 0: invalid start byte"
               ++ LF)
  /\ fst (run_bash (sample_bash_without_id "echo hi") command []
            (sample_state [] [Return sample_done]))
     = Return ([] ++ CROSS_MARK ++ py " Error executing command: "
               ++ (SQUOTE ++ py "id" ++ SQUOTE) ++ LF).
Proof.
  intros block command.
  pose (policy := fun b st =>
    command_outcome_policy (P := scripted) b command [] st).
  split; [|split; [|split; [|split; [|split]]]].
  - apply (proj1 (policy block (sample_state [] [Return sample_done]))
             sample_done (mkScript [] [] []) (JStr (py "toolu_1")));
      [reflexivity | unfold Qle; simpl; lia | reflexivity | reflexivity
      | reflexivity].
  - apply (proj1 (proj2 (policy block (sample_state [] [Return sample_failed])))
             sample_failed (mkScript [] [] []) (JStr (py "toolu_1")));
      [reflexivity | unfold Qle; simpl; lia | reflexivity | reflexivity
      | simpl; lia].
  - apply (proj1 (proj2 (proj2
                    (policy block (sample_state [] [Return sample_slow]))))
             sample_slow (mkScript [] [] []));
      [reflexivity | unfold Qlt; simpl; lia].
  - apply (proj1 (proj2 (proj2 (proj2
                    (policy block (sample_state [] [Raise sample_unlaunched])))))
             sample_unlaunched (mkScript [] [] []));
      reflexivity.
  - apply (proj1 (proj2 (proj2 (proj2 (proj2
                    (policy block (sample_state [] [Return sample_binary]))))))
             sample_binary (mkScript [] [] []));
      [reflexivity | unfold Qle; simpl; lia | reflexivity].
  - apply (proj1 (proj2 (proj2 (proj2 (proj2 (proj2
                    (policy (sample_bash_without_id "echo hi")
                       (sample_state [] [Return sample_done])))))))
             sample_done (mkScript [] [] [])
             (mkExn KeyError (SQUOTE ++ py "id" ++ SQUOTE)));
      [reflexivity | unfold Qle; simpl; lia | reflexivity | reflexivity].
Defined.

(** C2 fails on the code: a bash tool-use block whose command times out,
    or cannot be launched, is run and leaves the history without any
    tool-result turn. *)
Lemma no_tool_result_without_completion :
  let response := JDict (sample_body [sample_bash "toolu_1" "sleep 60"]) in
  let timed_out :=
    snd (process_claude_response response (sample_state [] [Return sample_slow])) in
  let unlaunched :=
    snd (process_claude_response response
           (sample_state [] [Raise sample_unlaunched])) in
  (runs (trace timed_out) = [JStr (py "sleep 60")]
   /\ history timed_out = []
   /\ ~ exists content,
         history timed_out
         = history (sample_state [] [Return sample_slow])
           ++ [tool_result_turn (JStr (py "toolu_1")) content])
  /\ (runs (trace unlaunched) = [JStr (py "sleep 60")]
      /\ history unlaunched = []
      /\ ~ exists content,
            history unlaunched
            = history (sample_state [] [Raise sample_unlaunched])
              ++ [tool_result_turn (JStr (py "toolu_1")) content]).
Proof.
  split; (split; [vm_compute; reflexivity|]);
    (split; [vm_compute; reflexivity|]); intros [content H];
    vm_compute in H; discriminate.
Qed.

Lemma tool_result_appended_on_completion_witness :
  let block := sample_bash "toolu_1" "echo hi" in
  history (snd (process_block block [] (sample_state [] [Return sample_failed])))
  = history (sample_state [] [Return sample_failed])
    ++ [tool_result_turn (JStr (py "toolu_1")) (tool_result_content sample_failed)]
  /\ history (snd (process_block block [] (sample_state [] [Return sample_slow])))
     = history (sample_state [] [Return sample_slow])
  /\ history (snd (process_block block []
                     (sample_state [] [Raise sample_unlaunched])))
     = history (sample_state [] [Raise sample_unlaunched])
  /\ history (snd (process_block block []
                     (sample_state [] [Return sample_binary])))
     = history (sample_state [] [Return sample_binary])
  /\ process_block (sample_bash_surrogate "toolu_1") []
       (sample_state [] [Return sample_done])
     = (Raise (mkExn OtherException
                 (py "'utf-8' codec can't encode character '\udc80' in position 22: surrogates not allowed")),
        sample_state [] [Return sample_done]).
Proof.
  intros block.
  assert (Hb : bash_block block (JStr (py "toolu_1")) (JStr (py "echo hi"))).
  { eexists _, _. repeat split; reflexivity. }
  pose (appended := fun st =>
    proj2 (proj2 (tool_result_appended_on_completion (P := scripted) block
                    (JStr (py "toolu_1")) (JStr (py "echo hi")) [] st Hb)
             eq_refl)).
  split; [|split; [|split; [|split]]].
  - apply (proj1 (appended (sample_state [] [Return sample_failed]))
             sample_failed (mkScript [] [] []));
      [reflexivity | unfold Qle; simpl; lia | reflexivity].
  - apply (proj1 (proj2 (appended (sample_state [] [Return sample_slow])))
             sample_slow (mkScript [] [] []));
      [reflexivity | unfold Qlt; simpl; lia].
  - apply (proj1 (proj2 (proj2
                    (appended (sample_state [] [Raise sample_unlaunched]))))
             sample_unlaunched (mkScript [] [] []));
      reflexivity.
  - apply (proj2 (proj2 (proj2
                    (appended (sample_state [] [Return sample_binary]))))
             sample_binary (mkScript [] [] [])
             (py "'utf-8' codec can't decode byte 0xff in position 0: invalid start byte"));
      [reflexivity | unfold Qle; simpl; lia | reflexivity].
  - apply (proj1 (tool_result_appended_on_completion (P := scripted)
                    (sample_bash_surrogate "toolu_1") (JStr (py "toolu_1"))
                    (JStr (py "echo hi #" ++ [0xDC80%N])) []
                    (sample_state [] [Return sample_done])
                    ltac:(eexists _, _; repeat split; reflexivity))).
    reflexivity.
Defined.

(** C10 fails on the code for the command that times out: the round's
    result starts with the clock marker, not with the error marker, and
    the assistant turn is appended. *)
Lemma timed_out_round_appends_assistant_turn :
  let st :=
    sample_state [sample_ok [sample_bash "toolu_1" "sleep 60"]]
      [Return sample_slow] in
  fst (chat (py "wait a minute") st)
  = Return (ALARM_CLOCK ++ py " Command timed out")
  /\ startswith (ALARM_CLOCK ++ py " Command timed out") CROSS_MARK = false
  /\ history (snd (chat (py "wait a minute") st))
     = [user_turn (py "wait a minute");
        assistant_turn (ALARM_CLOCK ++ py " Command timed out")]
  /\ ~ no_assistant_turn st (snd (chat (py "wait a minute") st)).
Proof.
  intros st. split; [vm_compute; reflexivity|]. split; [reflexivity|].
  split; [vm_compute; reflexivity|].
  intros (added & H & Hall).
  assert (Hh : history (snd (chat (py "wait a minute") st))
               = [user_turn (py "wait a minute");
                  assistant_turn (ALARM_CLOCK ++ py " Command timed out")])
    by (vm_compute; reflexivity).
  rewrite Hh in H. change (history st) with (@nil json) in H.
  simpl in H. subst added.
  inversion Hall as [|? ? _ Hrest]. inversion Hrest as [|? ? Hrole _].
  vm_compute in Hrole. discriminate.
Qed.

Lemma assistant_turn_decided_by_marker_witness :
  let block := sample_bash "toolu_1" "sleep 60" in
  let round (proc : result Process) :=
    chat (py "wait a minute") (sample_state [sample_ok [block]] [proc]) in
  (marked_as_error (fst (round (Return sample_failed)))
   /\ no_assistant_turn (sample_state [sample_ok [block]] [Return sample_failed])
        (snd (round (Return sample_failed))))
  /\ (marked_as_error (fst (round (Raise sample_unlaunched)))
      /\ no_assistant_turn
           (sample_state [sample_ok [block]] [Raise sample_unlaunched])
           (snd (round (Raise sample_unlaunched))))
  /\ fst (round (Return sample_slow))
     = Return (ALARM_CLOCK ++ py " Command timed out").
Proof.
  intros block round.
  assert (Hb : bash_block block (JStr (py "toolu_1")) (JStr (py "sleep 60"))).
  { eexists _, _. repeat split; reflexivity. }
  pose (first_block := fun (proc : result Process) =>
    let st := sample_state [sample_ok [block]] [proc] in
    let st1 := snd (history_append (user_turn (py "wait a minute")) st) in
    fun Hsend =>
      proj2 (assistant_turn_decided_by_marker (P := scripted)
               (py "wait a minute") st)
        (sample_body [block])
        (snd (send_message_to_claude (py "wait a minute") st1))
        block [] (JStr (py "toolu_1")) (JStr (py "sleep 60"))
        Hsend eq_refl eq_refl Hb).
  split; [|split].
  - refine (proj1 (first_block (Return sample_failed) _)
              sample_failed (mkScript [] [] []) _ _ _);
      [vm_compute; reflexivity | reflexivity | unfold Qle; simpl; lia
      | simpl; lia].
  - refine (proj1 (proj2 (first_block (Raise sample_unlaunched) _))
              sample_unlaunched (mkScript [] [] []) _ _ _);
      [vm_compute; reflexivity | reflexivity | reflexivity | reflexivity].
  - refine (proj1 (proj2 (proj2 (first_block (Return sample_slow) _))
                     sample_slow (mkScript [] [] []) _ _ _ _));
      [vm_compute; reflexivity | reflexivity | unfold Qlt; simpl; lia
      | reflexivity | reflexivity].
Defined.

Lemma create_then_load_roundtrip_witness :
  let line := py " sk-ant-1 " in
  fst (create_config sample_dumps (Return line) sample_env)
  = Return (config_of (strip line))
  /\ load_config sample_loads
       (snd (create_config sample_dumps (Return line) sample_env))
     = Return (config_of (strip line))
  /\ getitem (config_of (strip line)) (py "api_key") = Return (JStr (strip line)).
Proof.
  intros line.
  apply (create_then_load_roundtrip sample_dumps sample_loads line sample_env);
    reflexivity.
Defined.

Lemma second_setup_wins_witness :
  let line1 := py "sk-ant-1" in
  let line2 := py " sk-ant-2 " in
  let env1 := snd (create_config sample_dumps (Return line1) sample_env) in
  let env2 := snd (create_config sample_dumps (Return line2) env1) in
  load_config sample_loads env2 = Return (config_of (strip line2))
  /\ config_file env2 = Some (sample_dumps (config_of (strip line2)) 2)
  /\ env2 = snd (create_config sample_dumps (Return line2) sample_env).
Proof.
  intros line1 line2.
  apply (second_setup_wins sample_dumps sample_loads line1 line2 sample_env);
    reflexivity.
Defined.

(** ** Further properties of the agent *)

Section ResponseProperties.

Context `{P : Platform}.
Local Open Scope agent_scope.

Lemma send_raise_not_request (message : pystr) (st : State) (e : exn) :
  fst (send_message_to_claude message st) = Raise e ->
  is_RequestException e = false.
Proof.
  unfold send_message_to_claude, try_except, do_post, bind, get_self, emit,
    in_world, lift. simpl.
  match goal with
  | |- context [requests_post ?u ?h ?p (world st)] =>
      destruct (requests_post u h p (world st)) as [[r|e1] w]
  end; simpl.
  - destruct (raise_for_status r) as [[]|e1]; simpl.
    + destruct (json_body r) as [d|e1]; simpl; [discriminate|].
      destruct (is_RequestException e1) eqn:E; simpl; [discriminate|].
      now intros [= <-].
    + destruct (is_RequestException e1) eqn:E; simpl; [discriminate|].
      now intros [= <-].
  - destruct (is_RequestException e1) eqn:E; simpl; [discriminate|].
    now intros [= <-].
Qed.

Lemma read_blocks_raise_not_exception (response : json) (st : State)
  (e : exn) :
  fst (read_blocks response st) = Raise e -> is_Exception e = false.
Proof.
  unfold read_blocks, try_except.
  match goal with
  | |- context [bind ?m ?k st] => destruct (bind m k st) as [[t|e'] st1]
  end; [discriminate|].
  simpl. destruct (is_Exception e') eqn:He; simpl; [discriminate|].
  now intros [= <-].
Qed.

Lemma process_raise_not_exception (response : dict) (st : State) (e : exn) :
  fst (process_claude_response (JDict response) st) = Raise e ->
  is_Exception e = false.
Proof.
  destruct (dict_get response (py "error")) as [err|] eqn:Herr.
  - rewrite (process_tagged _ _ _ Herr). discriminate.
  - rewrite (process_untagged _ _ Herr). apply read_blocks_raise_not_exception.
Qed.

Lemma process_raise_not_object (response : json) (st : State) (e : exn) :
  (forall d, response <> JDict d) ->
  fst (process_claude_response response st) = Raise e ->
  exn_class_of e = TypeError
  /\ snd (process_claude_response response st) = st.
Proof.
  intros Hd.
  destruct response as [| b | n | f | s | items | d];
    try (intros [= <-]; split; reflexivity).
  - unfold process_claude_response, bind, lift, contains.
    destruct (is_substring (py "error") s).
    + intros [= <-]. split; reflexivity.
    + discriminate.
  - unfold process_claude_response, bind, lift, contains.
    destruct (existsb _ items).
    + intros [= <-]. split; reflexivity.
    + discriminate.
  - now destruct (Hd d).
Qed.

Lemma Exception_of_RequestException (e : exn) :
  is_Exception e = false -> is_RequestException e = false.
Proof.
  unfold is_Exception, is_RequestException.
  now destruct (exn_class_of e).
Qed.

Lemma TypeError_not_RequestException (e : exn) :
  exn_class_of e = TypeError -> is_RequestException e = false.
Proof. unfold is_RequestException. now intros ->. Qed.

(** X1: what [process_claude_response] can raise.  For a response that
    is a JSON object it never raises an [Exception]: whatever goes wrong
    while the response is read or a command is run comes back as a string,
    and only an exception outside [Exception], such as an interrupt during
    a command, leaves it.  For a body that is not an object, the test
    ["error" in response] and the lookup after it stand before the [try]:
    what is raised then is their [TypeError], and nothing has happened. *)
Theorem process_never_raises_exception (response : json) (st : State)
  (e : exn) :
  fst (process_claude_response response st) = Raise e ->
  ((exists d, response = JDict d) /\ is_Exception e = false)
  \/ ((forall d, response <> JDict d)
      /\ exn_class_of e = TypeError
      /\ snd (process_claude_response response st) = st).
Proof.
  intros H.
  destruct response as [| b | n | f | s | items | d];
    try (right; split; [discriminate|];
         apply process_raise_not_object; [discriminate|exact H]).
  left. split; [now exists d|].
  now apply (process_raise_not_exception d st).
Qed.

(** X2: no [RequestException] leaves [chat].  What a round raises is what
    [send_message_to_claude] raised, or what [process_claude_response]
    raised for the body the transport returned: an exception outside
    [Exception], or, for a body that is not an object, the [TypeError] of
    the error test. *)
Theorem chat_never_raises_request_exception (message : pystr) (st : State)
  (e : exn) :
  fst (chat message st) = Raise e ->
  let st1 := snd (history_append (user_turn message) st) in
  is_RequestException e = false
  /\ (fst (send_message_to_claude message st1) = Raise e
      \/ exists response st2,
           send_message_to_claude message st1 = (Return response, st2)
           /\ fst (process_claude_response response st2) = Raise e
           /\ (is_Exception e = false
               \/ (exn_class_of e = TypeError
                   /\ forall d, response <> JDict d))).
Proof.
  rewrite chat_unfold. intros H st1. fold st1 in H.
  destruct (send_message_to_claude message st1) as [[response|e1] st2] eqn:Hsend.
  - destruct (process_claude_response response st2) as [[result|e2] st3] eqn:Hp.
    + destruct (startswith result CROSS_MARK); discriminate.
    + simpl in H. injection H as <-.
      assert (Hr : fst (process_claude_response response st2) = Raise e2)
        by now rewrite Hp.
      destruct response as [| b | n | f | s | items | d].
      7: { pose proof (process_raise_not_exception d st2 e2 Hr) as He.
           split; [now apply Exception_of_RequestException|].
           right. exists (JDict d), st2. rewrite Hp. auto. }
      all: match type of Hr with
           | fst (process_claude_response ?v _) = _ =>
               destruct (process_raise_not_object v st2 e2) as [Hc _];
                 [discriminate|exact Hr|];
               split; [now apply TypeError_not_RequestException|];
               right; exists v, st2; rewrite Hp;
               repeat split; [right; split; [exact Hc|discriminate]]
           end.
  - simpl in H. injection H as <-. split; [|now left].
    eapply send_raise_not_request. rewrite Hsend. reflexivity.
Qed.

Lemma getitem_raise_Exception (v : json) (key : pystr) (e : exn) :
  getitem v key = Raise e -> is_Exception e = true.
Proof.
  unfold getitem. destruct v; try (intros [= <-]; reflexivity).
  destruct (dict_get entries key); [discriminate|]. now intros [= <-].
Qed.

Lemma getitem_dict_some (d : dict) (key : pystr) (v : json) :
  dict_get d key = Some v -> getitem (JDict d) key = Return v.
Proof. intros H. unfold getitem. now rewrite H. Qed.

Lemma iterate_raise_Exception (v : json) (e : exn) :
  iterate v = Raise e -> is_Exception e = true.
Proof.
  unfold iterate. destruct v; try discriminate; now intros [= <-].
Qed.

(** X3: a response without an error tag that has no ["content"], or whose
    ["content"] cannot be iterated ([null], a number, a boolean), comes
    back as the processing-error string with the text of the [KeyError]
    or [TypeError]; nothing is run and the state is untouched. *)
Theorem malformed_response_reported (response : dict) (st : State) :
  dict_get response (py "error") = None ->
  (dict_get response (py "content") = None ->
   process_claude_response (JDict response) st
   = (Return (CROSS_MARK ++ py " Error processing response: "
              ++ SQUOTE ++ py "content" ++ SQUOTE), st))
  /\ (forall content e,
        dict_get response (py "content") = Some content ->
        iterate content = Raise e ->
        process_claude_response (JDict response) st
        = (Return (CROSS_MARK ++ py " Error processing response: "
                   ++ exn_str e), st)).
Proof.
  intros Herr. rewrite (process_untagged _ _ Herr). unfold read_blocks.
  unfold try_except, bind, lift, getitem. split.
  - intros Hc. rewrite Hc. reflexivity.
  - intros content e Hc Hit. rewrite Hc, Hit. simpl.
    now rewrite (iterate_raise_Exception _ _ Hit).
Qed.

(** X4: a block whose type is neither [text] nor [tool_use], and a
    [tool_use] block that names another tool than [bash], are skipped:
    the text gathered so far is returned as it is, no command is run and
    the state is untouched. *)
Theorem other_blocks_ignored (d : dict) (ty : json) (acc : pystr)
  (st : State) :
  dict_get d (py "type") = Some ty ->
  eq_str ty (py "text") = false ->
  (eq_str ty (py "tool_use") = false
   \/ exists name,
        dict_get d (py "name") = Some name /\ eq_str name (py "bash") = false) ->
  process_block (JDict d) acc st = (Return acc, st).
Proof.
  intros Hty Htext Hother.
  unfold process_block, bind, lift, getitem. rewrite Hty, Htext.
  destruct (eq_str ty (py "tool_use")) eqn:Htool.
  - destruct Hother as [H|(name & Hname & Hbash)]; [discriminate|].
    now rewrite Hname, Hbash.
  - reflexivity.
Qed.

(** X5: a [bash] tool-use block without an ["id"], whose command the
    console can show: the command is run all the same, and when it
    completes with output that can be decoded, whatever its exit code, the
    round reports an execution error with the text of the [KeyError]; no
    tool result is recorded. *)
Theorem command_without_id (d : dict) (inp command : json) (acc : pystr)
  (st : State) (p : Process) (w : World) :
  dict_get d (py "type") = Some (JStr (py "tool_use")) ->
  dict_get d (py "name") = Some (JStr (py "bash")) ->
  dict_get d (py "input") = Some inp ->
  getitem inp (py "command") = Return command ->
  dict_get d (py "id") = None ->
  print (announcement command) = Return tt ->
  popen command (world st) = (Return p, w) ->
  (duration p <= 30)%Q ->
  decode_error p = None ->
  process_block (JDict d) acc st
  = (Return (acc ++ CROSS_MARK ++ py " Error executing command: "
             ++ SQUOTE ++ py "id" ++ SQUOTE ++ LF),
     {| self := self st; world := w;
        trace := trace st ++ [EvRun command 30] |}).
Proof.
  intros Hty Hname Hinp Hcmd Hid Hshow Hp Hd Hdec. apply Qle_bool_iff in Hd.
  unfold process_block, bind, lift.
  rewrite !(getitem_dict_some _ _ _ Hty). cbn [eq_str]. simpl pystr_eqb.
  cbv iota. rewrite (getitem_dict_some _ _ _ Hname). simpl pystr_eqb.
  cbv iota. rewrite (getitem_dict_some _ _ _ Hinp), Hcmd, Hshow.
  unfold run_bash, try_except, do_run, bind, emit, in_world, subprocess_run,
    lift. simpl. rewrite Hp, Hd, Hdec, Hid. reflexivity.
Qed.

(** X6: when a block after a completed command cannot be read, the
    round's display is the processing-error string alone: the report of
    the command is dropped from it, while the command's tool-result turn
    stays in the history.  The command is one the console can show, and
    its output one that can be decoded. *)
Theorem later_failure_keeps_tool_result (response : dict)
  (block bad id command : json) (rest : list json) (st : State)
  (p : Process) (w : World) (e : exn) :
  dict_get response (py "error") = None ->
  dict_get response (py "content") = Some (JList (block :: bad :: rest)) ->
  bash_block block id command ->
  print (announcement command) = Return tt ->
  popen command (world st) = (Return p, w) ->
  (duration p <= 30)%Q ->
  decode_error p = None ->
  getitem bad (py "type") = Raise e ->
  process_claude_response (JDict response) st
  = (Return (CROSS_MARK ++ py " Error processing response: " ++ exn_str e),
     with_history st
       (history st ++ [tool_result_turn id (tool_result_content p)])
       w (trace st ++ [EvRun command 30])).
Proof.
  intros Herr Hcontent Hb Hshow Hp Hd Hdec Hbad. apply Qle_bool_iff in Hd.
  rewrite (process_untagged _ _ Herr). unfold read_blocks.
  unfold try_except, bind, lift. unfold getitem at 1. rewrite Hcontent.
  cbn [iterate process_blocks]. unfold bind.
  rewrite (process_block_bash _ _ _ _ _ Hb), Hshow.
  rewrite (run_bash_completed _ _ _ [] st _ _ Hp Hd Hdec
             (bash_block_id _ _ _ Hb)).
  unfold process_block at 1. unfold bind, lift. rewrite Hbad.
  cbn [dispatch]. now rewrite (getitem_raise_Exception _ _ _ Hbad).
Qed.

Lemma process_text_only (response : dict) (blocks : list json)
  (texts : list pystr) (st : State) :
  dict_get response (py "error") = None ->
  dict_get response (py "content") = Some (JList blocks) ->
  Forall2 text_block blocks texts ->
  process_claude_response (JDict response) st
  = (Return (strip (join LF texts)), st).
Proof.
  intros Herr Hcontent Hblocks.
  rewrite (process_untagged _ _ Herr). unfold read_blocks.
  unfold try_except, bind, lift.
  rewrite (getitem_dict_some _ _ _ Hcontent). cbn [iterate].
  rewrite (process_blocks_text _ _ [] st Hblocks). cbn [app].
  now rewrite strip_concat_lines.
Qed.

(** X7: a round whose answer has only text blocks runs nothing and
    returns the stripped text; the history gains the user turn and then
    the assistant turn with that text, unless the text itself starts
    with the error marker, in which case the answer is not recorded. *)
Theorem text_only_round (message : pystr) (st st2 : State) (response : dict)
  (blocks : list json) (texts : list pystr) :
  send_message_to_claude message (snd (history_append (user_turn message) st))
  = (Return (JDict response), st2) ->
  dict_get response (py "error") = None ->
  dict_get response (py "content") = Some (JList blocks) ->
  Forall2 text_block blocks texts ->
  let result := strip (join LF texts) in
  fst (chat message st) = Return result
  /\ history (snd (chat message st))
     = history st ++ user_turn message
                     :: (if startswith result CROSS_MARK then []
                         else [assistant_turn result])
  /\ runs (trace (snd (chat message st))) = runs (trace st).
Proof.
  intros Hsend Herr Hcontent Hblocks result.
  pose proof (send_history _ _ _ _ Hsend) as Hh.
  destruct (send_state message (snd (history_append (user_turn message) st)))
    as [w Hst2].
  rewrite Hsend in Hst2. cbn [snd] in Hst2.
  assert (Hruns : runs (trace st2) = runs (trace st)).
  { rewrite Hst2. cbn [trace history_append set_history snd].
    rewrite runs_app. cbn. now rewrite app_nil_r. }
  rewrite chat_unfold, Hsend.
  rewrite (process_text_only _ _ _ st2 Herr Hcontent Hblocks).
  fold result. unfold history in *.
  destruct (startswith result CROSS_MARK).
  - repeat split; [|exact Hruns]. cbn [snd]. rewrite Hh. reflexivity.
  - repeat split; [|exact Hruns].
    cbn [snd history_append set_history self conversation_history].
    rewrite Hh. cbn [snd history_append set_history self conversation_history].
    now rewrite <- app_assoc.
Qed.

(** X8: an answer whose content is empty (an empty list, string or
    object) gives the empty display string, which does not start with
    the error marker: the round records an assistant turn with empty
    content. *)
Theorem empty_answer_recorded (message : pystr) (st st2 : State)
  (response : dict) (content : json) :
  send_message_to_claude message (snd (history_append (user_turn message) st))
  = (Return (JDict response), st2) ->
  dict_get response (py "error") = None ->
  dict_get response (py "content") = Some content ->
  iterate content = Return [] ->
  fst (chat message st) = Return []
  /\ history (snd (chat message st))
     = history st ++ [user_turn message; assistant_turn []].
Proof.
  intros Hsend Herr Hcontent Hit.
  pose proof (send_history _ _ _ _ Hsend) as Hh.
  assert (Hp : process_claude_response (JDict response) st2
               = (Return [], st2)).
  { rewrite (process_untagged _ _ Herr). unfold read_blocks.
    unfold try_except, bind, lift.
    rewrite (getitem_dict_some _ _ _ Hcontent), Hit. reflexivity. }
  rewrite chat_unfold, Hsend, Hp.
  change (startswith [] CROSS_MARK) with false. cbv iota.
  split; [reflexivity|]. unfold history in *.
  cbn [snd history_append set_history self conversation_history].
  rewrite Hh. cbn [snd history_append set_history self conversation_history].
  now rewrite <- app_assoc.
Qed.

(** X9: the shape of the history after a round, however it ends: the
    history before it, the user turn, one tool-result turn for each
    command whose result was recorded, and last the assistant turn with
    the returned text, present exactly when the round returns a text
    that does not start with the error marker. *)
Theorem chat_history_shape (message : pystr) (st : State) :
  exists results,
    Forall is_tool_result_turn results
    /\ history (snd (chat message st))
       = history st ++ user_turn message :: results
         ++ match fst (chat message st) with
            | Return result =>
                if startswith result CROSS_MARK then []
                else [assistant_turn result]
            | Raise _ => []
            end.
Proof.
  rewrite chat_unfold.
  set (st1 := snd (history_append (user_turn message) st)).
  assert (H1 : history st1 = history st ++ [user_turn message]) by reflexivity.
  destruct (send_message_to_claude message st1) as [[response|e] st2] eqn:Hsend;
    pose proof (send_history _ _ _ _ Hsend) as H2.
  - destruct (appends_process_claude_response response st2)
      as (results & _ & H3 & Hall & _).
    exists results. split; [exact Hall|].
    destruct (process_claude_response response st2) as [[result|e] st3];
      cbn [fst snd] in *.
    + destruct (startswith result CROSS_MARK) eqn:E; cbn [fst snd]; rewrite E.
      * rewrite H3, H2, H1, app_nil_r. now rewrite <- app_assoc.
      * unfold history in *.
        cbn [history_append set_history snd self conversation_history].
        rewrite H3, H2, H1. now rewrite <- !app_assoc.
    + rewrite H3, H2, H1, app_nil_r. now rewrite <- app_assoc.
  - exists []. split; [constructor|]. cbn [fst snd]. now rewrite H2, H1.
Qed.

Lemma runs_at_most_still {A} (n : nat) (m : M A) :
  (forall st, snd (m st) = st) -> runs_at_most n m.
Proof.
  intros H st. exists [], []. rewrite H, !app_nil_r. simpl.
  repeat split; auto with arith.
Qed.

Lemma run_bash_runs_once (block command : json) (acc : pystr) :
  runs_at_most 1 (run_bash block command acc).
Proof.
  intros st.
  destruct (popen command (world st)) as [[p|e] w] eqn:Hp.
  - destruct (Qle_bool (duration p) 30) eqn:Hd.
    + destruct (decode_error p) as [text|] eqn:Hdec.
      { rewrite (run_bash_undecodable block _ acc st _ _ _ Hp Hd Hdec).
        exists [], [EvRun command 30]. simpl. rewrite app_nil_r.
        repeat split; auto. repeat constructor. }
      destruct (getitem block (py "id")) as [id|e] eqn:Hid.
      * rewrite (run_bash_completed _ _ _ acc st _ _ Hp Hd Hdec Hid).
        exists [tool_result_turn id (tool_result_content p)], [EvRun command 30].
        repeat split; auto. repeat constructor.
      * exists [], [EvRun command 30].
        unfold run_bash, try_except, do_run, bind, emit, in_world,
          subprocess_run, lift. simpl. rewrite Hp, Hd, Hdec, Hid. simpl.
        rewrite (getitem_raise_Exception _ _ _ Hid).
        destruct (is_TimeoutExpired e); simpl; rewrite app_nil_r;
          repeat split; auto; repeat constructor.
    + rewrite (run_bash_timed_out block _ acc st _ _ Hp Hd).
      exists [], [EvRun command 30]. simpl. rewrite app_nil_r.
      repeat split; auto. repeat constructor.
  - rewrite (run_bash_raised block _ acc st _ _ Hp).
    exists [], [EvRun command 30]. simpl. rewrite app_nil_r.
    repeat split; auto. repeat constructor.
Qed.

Lemma process_block_runs_once (block : json) (acc : pystr) :
  runs_at_most 1 (process_block block acc).
Proof.
  unfold process_block, bind, lift. intros st.
  destruct (getitem block (py "type")) as [ty|e];
    [|apply (runs_at_most_still 1 (fun s => (Raise e, s))); reflexivity].
  destruct (eq_str ty (py "text")).
  { destruct (getitem block (py "text")) as [t|e];
      [|apply (runs_at_most_still 1 (fun s => (@Raise pystr e, s))); reflexivity].
    destruct (add_str t LF) as [line|e].
    - apply (runs_at_most_still 1 (fun s => (Return (acc ++ line), s)));
        reflexivity.
    - apply (runs_at_most_still 1 (fun s => (@Raise pystr e, s))); reflexivity. }
  destruct (eq_str ty (py "tool_use"));
    [|apply (runs_at_most_still 1 (fun s => (Return acc, s))); reflexivity].
  destruct (getitem block (py "name")) as [name|e];
    [|apply (runs_at_most_still 1 (fun s => (@Raise pystr e, s))); reflexivity].
  destruct (eq_str name (py "bash"));
    [|apply (runs_at_most_still 1 (fun s => (Return acc, s))); reflexivity].
  destruct (getitem block (py "input")) as [inp|e];
    [|apply (runs_at_most_still 1 (fun s => (@Raise pystr e, s))); reflexivity].
  destruct (getitem inp (py "command")) as [command|e];
    [|apply (runs_at_most_still 1 (fun s => (@Raise pystr e, s))); reflexivity].
  destruct (print (announcement command)) as [[]|e];
    [|apply (runs_at_most_still 1 (fun s => (@Raise pystr e, s))); reflexivity].
  apply run_bash_runs_once.
Qed.

Lemma process_blocks_runs (content : list json) (acc : pystr) :
  runs_at_most (List.length content) (process_blocks content acc).
Proof.
  revert acc. induction content as [|block rest IH]; intros acc st.
  - apply (runs_at_most_still 0 (fun s => (Return acc, s))). reflexivity.
  - cbn [process_blocks]. unfold bind.
    destruct (process_block_runs_once block acc st)
      as (added & evs & Hh & Ht & Hr & Hle1 & Hle2).
    destruct (process_block block acc st) as [[acc'|e] st1]; cbn [snd] in *.
    + destruct (IH acc' st1) as (added' & evs' & Hh' & Ht' & Hr' & Hle1' & Hle2').
      exists (added ++ added'), (evs ++ evs').
      rewrite Hh', Hh, Ht', Ht, !app_assoc, !List.length_app. cbn [List.length].
      repeat split; auto using Forall_app; [apply Forall_app; auto|lia|lia].
    + exists added, evs. cbn [List.length]. repeat split; auto; lia.
Qed.

(** X10: reading a response whose content is a list runs at most one
    command per block, and records at most one tool-result turn per
    command run; nothing else is added to the history or to the trace. *)
Theorem commands_bounded_by_blocks (response : dict) (blocks : list json)
  (st : State) :
  dict_get response (py "content") = Some (JList blocks) ->
  exists added evs,
    history (snd (process_claude_response (JDict response) st))
    = history st ++ added
    /\ trace (snd (process_claude_response (JDict response) st))
       = trace st ++ evs
    /\ Forall is_tool_result_turn added
    /\ Forall is_run evs
    /\ (List.length added <= List.length evs <= List.length blocks)%nat.
Proof.
  intros Hcontent.
  destruct (appends_process_claude_response (JDict response) st)
    as (added0 & evs0 & Hh0 & Hall & Ht0 & _).
  assert (H : exists added evs,
    history (snd (process_claude_response (JDict response) st))
    = history st ++ added
    /\ trace (snd (process_claude_response (JDict response) st))
       = trace st ++ evs
    /\ Forall is_run evs
    /\ (List.length added <= List.length evs <= List.length blocks)%nat).
  { destruct (dict_get response (py "error")) as [err|] eqn:Herr.
    - rewrite (process_tagged _ _ _ Herr).
      exists [], []. cbn. rewrite !app_nil_r. repeat split; auto; lia.
    - rewrite (process_untagged _ _ Herr).
      unfold read_blocks, try_except, bind, lift.
      rewrite (getitem_dict_some _ _ _ Hcontent). cbn [iterate].
      destruct (process_blocks_runs blocks [] st)
        as (added & evs & Hh & Ht & Hr & Hle).
      exists added, evs.
      destruct (process_blocks blocks [] st) as [[t|e] st1]; cbn [snd] in *.
      + auto.
      + cbn [dispatch]. destruct (is_Exception e); cbn; auto. }
  destruct H as (added & evs & Hh & Ht & Hr & Hle).
  exists added, evs. repeat split; try assumption; try lia.
  rewrite Hh in Hh0. apply app_inv_head in Hh0. now subst added0.
Qed.

End ResponseProperties.

(** ** Further properties of the transport *)

Section TransportProperties.

Context `{P : Platform}.

(** X11: what [send_message_to_claude] does when nothing of the
    transport's own fails.  A response with a status outside 400..599
    whose body parses is returned as it is, after exactly one request.  An
    exception that is not a [RequestException], raised by [requests.post]
    or by [response.json()], is not caught: it goes on to the caller. *)
Theorem send_passes_through (message : pystr) (st : State) :
  let url := api_url (self st) in
  let hs := headers (self st) in
  let payload := payload_of (history st) message in
  (forall r w d,
     requests_post url hs payload (world st) = (Return r, w) ->
     ~ (400 <= status_code r < 600)%Z ->
     json_body r = Return d ->
     send_message_to_claude message st
     = (Return d,
        {| self := self st; world := w;
           trace := trace st ++ [EvPost url hs payload] |}))
  /\ (forall e w,
        requests_post url hs payload (world st) = (Raise e, w) ->
        is_RequestException e = false ->
        fst (send_message_to_claude message st) = Raise e)
  /\ (forall r w e,
        requests_post url hs payload (world st) = (Return r, w) ->
        ~ (400 <= status_code r < 600)%Z ->
        json_body r = Raise e ->
        is_RequestException e = false ->
        fst (send_message_to_claude message st) = Raise e).
Proof.
  assert (Hstatus : forall r,
            ~ (400 <= status_code r < 600)%Z -> raise_for_status r = Return tt).
  { intros r H. unfold raise_for_status.
    destruct ((400 <=? status_code r) && (status_code r <? 600))%Z eqn:E;
      [|reflexivity].
    apply andb_true_iff in E. destruct E as [E1 E2].
    apply Z.leb_le in E1. apply Z.ltb_lt in E2. lia. }
  unfold send_message_to_claude, try_except, do_post, bind, get_self, emit,
    in_world, lift, history. cbn [fst snd self world trace].
  split; [|split].
  - intros r w d Hpost Hs Hbody. rewrite Hpost, (Hstatus r Hs), Hbody.
    reflexivity.
  - intros e w Hpost He. rewrite Hpost. cbn. now rewrite He.
  - intros r w e Hpost Hs Hbody He. rewrite Hpost, (Hstatus r Hs), Hbody.
    cbn. now rewrite He.
Qed.

End TransportProperties.

(** ** What a session keeps *)

Section Preserves.

Context `{P : Platform}.

Variable I : State -> State -> Prop.

Hypothesis I_refl : forall st, I st st.
Hypothesis I_trans : forall a b c, I a b -> I b c -> I a c.
Hypothesis I_emit : forall st ev, I st (snd (emit ev st)).
Hypothesis I_world :
  forall st w, I st {| self := self st; world := w; trace := trace st |}.
Hypothesis I_append : forall st turn, I st (snd (history_append turn st)).

Lemma preserves_ret {A} (a : A) : preserves I (ret a).
Proof. intros st. apply I_refl. Qed.

Lemma preserves_lift {A} (r : result A) : preserves I (lift r).
Proof. intros st. apply I_refl. Qed.

Lemma preserves_get_self : preserves I get_self.
Proof. intros st. apply I_refl. Qed.

Lemma preserves_emit (ev : event) : preserves I (emit ev).
Proof. intros st. apply I_emit. Qed.

Lemma preserves_history_append (turn : json) :
  preserves I (history_append turn).
Proof. intros st. apply I_append. Qed.

Lemma preserves_in_world {A} (f : World -> result A * World) :
  preserves I (in_world f).
Proof.
  intros st. unfold in_world. destruct (f (world st)) as [r w]. apply I_world.
Qed.

Lemma preserves_bind {A B} (m : M A) (k : A -> M B) :
  preserves I m -> (forall a, preserves I (k a)) -> preserves I (bind m k).
Proof.
  intros Hm Hk st. unfold bind. specialize (Hm st).
  destruct (m st) as [[a|e] st1]; cbn [snd] in *; [|exact Hm].
  eapply I_trans; [exact Hm | apply Hk].
Qed.

Lemma preserves_try_except {A} (body : M A) (clauses : list (clause A)) :
  preserves I body ->
  (forall c f e, In (c, f) clauses -> preserves I (f e)) ->
  preserves I (try_except body clauses).
Proof.
  intros Hb Hc st. unfold try_except. specialize (Hb st).
  destruct (body st) as [[a|e] st1]; cbn [snd] in *; [exact Hb|].
  destruct (dispatch clauses e) as [h|] eqn:Ed; [|exact Hb].
  destruct (dispatch_some _ _ _ Ed) as (c & f & Hin & _ & ->).
  eapply I_trans; [exact Hb | apply (Hc c f e Hin)].
Qed.

Ltac preserves_step :=
  match goal with
  | |- preserves _ (bind _ _) => apply preserves_bind; [|intros ?]
  | |- preserves _ (ret _) => apply preserves_ret
  | |- preserves _ (lift _) => apply preserves_lift
  | |- preserves _ (emit _) => apply preserves_emit
  | |- preserves _ (in_world _) => apply preserves_in_world
  | |- preserves _ get_self => apply preserves_get_self
  | |- preserves _ (history_append _) => apply preserves_history_append
  | |- preserves _ (try_except _ _) =>
      apply preserves_try_except;
      [| let Hin := fresh "Hin" in
         simpl; intros ? ? ? Hin;
         repeat (destruct Hin as [Hin|Hin]; [inversion Hin; subst; clear Hin|]);
         try contradiction ]
  | |- preserves _ (if ?b then _ else _) => destruct b
  | |- preserves _ (match ?x with _ => _ end) => destruct x
  end.

Lemma preserves_process_blocks (content : list json) (acc : pystr) :
  preserves I (process_blocks content acc).
Proof.
  revert acc. induction content as [|block rest IH]; intros acc;
    cbn [process_blocks].
  - apply preserves_ret.
  - apply preserves_bind; [|intros; apply IH].
    unfold process_block, run_bash, do_run. repeat preserves_step.
Qed.

Lemma preserves_chat (message : pystr) : preserves I (chat message).
Proof.
  unfold chat, send_message_to_claude, process_claude_response, do_post.
  repeat preserves_step; apply preserves_process_blocks.
Qed.

End Preserves.

(** ** Properties of the interactive loop *)

Section SessionProperties.

Context `{P : Platform}.
Local Open Scope agent_scope.

Lemma step_input_raised (st : State) (e : exn) (w : World) :
  input user_prompt (world st) = (Raise e, w) ->
  interactive_step st = (caught e, after_input st w).
Proof.
  intros Hin.
  unfold interactive_step, try_except, do_input, bind, emit, in_world.
  cbn [fst snd self world trace]. fold user_prompt. rewrite Hin.
  cbn [dispatch]. unfold caught.
  destruct (is_KeyboardInterrupt e); [reflexivity|].
  destruct (is_Exception e); reflexivity.
Qed.

Lemma print_raise (s : pystr) (e : exn) :
  print s = Raise e -> exn_class_of e = OtherException.
Proof.
  unfold print. destruct (first_surrogate s 0) as [[[start c] more]|];
    [|discriminate].
  now intros [= <-].
Qed.

Lemma step_line (st : State) (line : pystr) (w : World) :
  input user_prompt (world st) = (Return line, w) ->
  interactive_step st
  = if pystr_eqb (lower (strip line)) (py "exit")
    then (Return Break, after_input st w)
    else if pystr_eqb (lower (strip line)) (py "clear")
    then (Return Continue, snd (set_history [] (after_input st w)))
    else if pystr_eqb (strip line) []
    then (Return Continue, after_input st w)
    else match chat (strip line) (after_input st w) with
         | (Return _, st') => (Return Continue, st')
         | (Raise e, st') => (caught e, st')
         end.
Proof.
  intros Hin.
  unfold interactive_step, try_except, do_input, bind, emit, in_world.
  cbn [fst snd self world trace]. fold user_prompt. rewrite Hin.
  destruct (pystr_eqb (lower (strip line)) (py "exit")); [reflexivity|].
  destruct (pystr_eqb (lower (strip line)) (py "clear")); [reflexivity|].
  destruct (pystr_eqb (strip line) []); [reflexivity|].
  fold (after_input st w).
  destruct (chat (strip line) (after_input st w)) as [[r|e] st'].
  { unfold lift. destruct (print r) as [[]|e] eqn:Hshow; [reflexivity|].
    cbn [dispatch]. unfold is_KeyboardInterrupt, is_Exception.
    now rewrite (print_raise _ _ Hshow). }
  cbn [dispatch]. unfold caught.
  destruct (is_KeyboardInterrupt e); [reflexivity|].
  destruct (is_Exception e); reflexivity.
Qed.

Lemma caught_raise (e e' : exn) :
  caught e = Raise e' ->
  is_Exception e' = false /\ is_KeyboardInterrupt e' = false.
Proof.
  unfold caught.
  destruct (is_KeyboardInterrupt e) eqn:Hk; [discriminate|].
  destruct (is_Exception e) eqn:He; [discriminate|].
  intros [= <-]. auto.
Qed.

Lemma step_raise (st : State) (e : exn) :
  fst (interactive_step st) = Raise e ->
  is_Exception e = false /\ is_KeyboardInterrupt e = false.
Proof.
  destruct (input user_prompt (world st)) as [[line|e0] w] eqn:Hin.
  - rewrite (step_line st line w Hin).
    destruct (pystr_eqb (lower (strip line)) (py "exit")); [discriminate|].
    destruct (pystr_eqb (lower (strip line)) (py "clear")); [discriminate|].
    destruct (pystr_eqb (strip line) []); [discriminate|].
    destruct (chat (strip line) (after_input st w)) as [[r|e1] st'];
      [discriminate|].
    apply caught_raise.
  - rewrite (step_input_raised st e0 w Hin). apply caught_raise.
Qed.

(** X12: the interactive loop lets no [Exception] and no
    [KeyboardInterrupt] out: when it ends by raising, the exception is of
    another kind (a [SystemExit], say). *)
Theorem session_never_raises_exception (fuel : nat) (st : State) (e : exn) :
  fst (interactive_mode fuel st) = Some (Raise e) ->
  is_Exception e = false /\ is_KeyboardInterrupt e = false.
Proof.
  revert st. induction fuel as [|fuel IH]; intros st; cbn [interactive_mode].
  - discriminate.
  - pose proof (step_raise st) as Hstep.
    destruct (interactive_step st) as [[[|]|e'] st'].
    + apply IH.
    + discriminate.
    + cbn [fst]. intros [= <-]. now apply Hstep.
Qed.

(** X13: a line that is [exit], [clear] or blank once stripped (and
    lowered) stays in the program: the round asks for the line and does
    nothing else outside; [exit] ends the loop and leaves the agent as it
    is, [clear] goes on with an empty history, a blank line goes on with
    the agent as it is. *)
Theorem control_lines_stay_local (st : State) (line : pystr) (w : World) :
  input user_prompt (world st) = (Return line, w) ->
  (lower (strip line) = py "exit" ->
   interactive_step st = (Return Break, after_input st w)
   /\ forall fuel,
        interactive_mode (S fuel) st = (Some (Return tt), after_input st w))
  /\ (lower (strip line) <> py "exit" ->
      lower (strip line) = py "clear" ->
      interactive_step st
      = (Return Continue,
         with_history st [] w (trace st ++ [EvInput user_prompt])))
  /\ (lower (strip line) <> py "exit" ->
      lower (strip line) <> py "clear" ->
      strip line = [] ->
      interactive_step st = (Return Continue, after_input st w)).
Proof.
  intros Hin. rewrite (step_line st line w Hin).
  assert (Hneq : forall a b, a <> b -> pystr_eqb a b = false).
  { intros a b H. destruct (pystr_eqb a b) eqn:E; [|reflexivity].
    apply pystr_eqb_eq in E. contradiction. }
  split; [|split].
  - intros Hexit. rewrite Hexit, pystr_eqb_refl. split; [reflexivity|].
    intros fuel. cbn [interactive_mode]. rewrite (step_line st line w Hin).
    now rewrite Hexit, pystr_eqb_refl.
  - intros Hexit Hclear. rewrite (Hneq _ _ Hexit), Hclear, pystr_eqb_refl.
    reflexivity.
  - intros Hexit Hclear Hblank.
    rewrite (Hneq _ _ Hexit), (Hneq _ _ Hclear), Hblank, pystr_eqb_refl.
    reflexivity.
Qed.

(** X14: an interrupt ends the session in order.  At the prompt, the loop
    returns with the agent as it is.  During a round (while a command
    runs, say), the loop returns as well, and the history keeps the user
    turn of the round. *)
Theorem interrupt_ends_session (fuel : nat) (st : State) :
  (forall e w,
     input user_prompt (world st) = (Raise e, w) ->
     is_KeyboardInterrupt e = true ->
     interactive_mode (S fuel) st = (Some (Return tt), after_input st w))
  /\ (forall line w e st',
        input user_prompt (world st) = (Return line, w) ->
        lower (strip line) <> py "exit" ->
        lower (strip line) <> py "clear" ->
        strip line <> [] ->
        chat (strip line) (after_input st w) = (Raise e, st') ->
        is_KeyboardInterrupt e = true ->
        interactive_mode (S fuel) st = (Some (Return tt), st')
        /\ exists added,
             history st' = history st ++ user_turn (strip line) :: added).
Proof.
  assert (Hneq : forall a b, a <> b -> pystr_eqb a b = false).
  { intros a b H. destruct (pystr_eqb a b) eqn:E; [|reflexivity].
    apply pystr_eqb_eq in E. contradiction. }
  split.
  - intros e w Hin Hk. cbn [interactive_mode].
    rewrite (step_input_raised st e w Hin). unfold caught. now rewrite Hk.
  - intros line w e st' Hin Hexit Hclear Hblank Hchat Hk.
    split.
    + cbn [interactive_mode]. rewrite (step_line st line w Hin).
      rewrite (Hneq _ _ Hexit), (Hneq _ _ Hclear), (Hneq _ _ Hblank), Hchat.
      unfold caught. now rewrite Hk.
    + pose proof (chat_unfold (strip line) (after_input st w)) as Hu.
      rewrite Hchat in Hu.
      destruct (send_message_to_claude (strip line) _)
        as [[response|e1] st2] eqn:Hsend.
      * destruct (appends_process_claude_response response st2)
          as (added & _ & Hh & _).
        destruct (process_claude_response response st2) as [[r|e2] st3].
        -- destruct (startswith r CROSS_MARK); discriminate.
        -- injection Hu as _ ->. cbn [snd] in Hh. exists added.
           rewrite Hh, (send_history _ _ _ _ Hsend). unfold history.
           cbn. now rewrite <- app_assoc.
      * injection Hu as _ ->. exists [].
        rewrite (send_history _ _ _ _ Hsend). reflexivity.
Qed.

(** X15: on a closed standard input the loop never ends.  When every
    call of [input] raises an [Exception] (as [EOFError] is), each round
    catches it and asks again: whatever number of rounds the loop is
    given, it is still running after them, with the history as it was
    and nothing posted. *)
Theorem closed_input_never_ends (closed : World -> Prop) :
  (forall w, closed w ->
     exists e w',
       input user_prompt w = (Raise e, w')
       /\ is_Exception e = true /\ closed w') ->
  forall fuel st,
    closed (world st) ->
    fst (interactive_mode fuel st) = None
    /\ history (snd (interactive_mode fuel st)) = history st
    /\ posted (trace (snd (interactive_mode fuel st))) = posted (trace st)
    /\ runs (trace (snd (interactive_mode fuel st))) = runs (trace st).
Proof.
  intros Hclosed fuel. induction fuel as [|fuel IH]; intros st Hw.
  - cbn. auto.
  - cbn [interactive_mode].
    destruct (Hclosed _ Hw) as (e & w' & Hin & He & Hw').
    rewrite (step_input_raised st e w' Hin). unfold caught.
    assert (Hk : is_KeyboardInterrupt e = false).
    { unfold is_Exception, is_KeyboardInterrupt in *.
      now destruct (exn_class_of e). }
    rewrite Hk, He.
    destruct (IH (after_input st w') Hw') as (H1 & H2 & H3 & H4).
    rewrite H1, H2, H3, H4. cbn [after_input trace].
    unfold posted, runs. rewrite !flat_map_app. cbn. rewrite !app_nil_r.
    auto.
Qed.

Lemma same_credentials_refl (a : ProxmoxClaudeAgent) : same_credentials a a.
Proof. repeat split. Qed.

Lemma same_credentials_trans (a b c : ProxmoxClaudeAgent) :
  same_credentials a b -> same_credentials b c -> same_credentials a c.
Proof.
  intros (H1 & H2 & H3) (H4 & H5 & H6). repeat split; congruence.
Qed.

Lemma chat_same_credentials (message : pystr) (st : State) :
  same_credentials (self st) (self (snd (chat message st))).
Proof.
  apply (preserves_chat (fun a b => same_credentials (self a) (self b))).
  - intros. apply same_credentials_refl.
  - intros a b c. apply same_credentials_trans.
  - intros. apply same_credentials_refl.
  - intros. apply same_credentials_refl.
  - intros. repeat split.
Qed.

Lemma session_keeps_refl (st : State) : session_keeps st st.
Proof.
  split; [apply same_credentials_refl|]. exists []. rewrite app_nil_r.
  split; [reflexivity | constructor].
Qed.

Lemma session_keeps_trans (a b c : State) :
  session_keeps a b -> session_keeps b c -> session_keeps a c.
Proof.
  intros [Hab (evs & Ht & Hevs)] [Hbc (evs' & Ht' & Hevs')].
  split; [eapply same_credentials_trans; eauto|].
  exists (evs ++ evs'). rewrite Ht', Ht, app_assoc. split; [reflexivity|].
  apply Forall_app. split; [exact Hevs|].
  destruct Hab as (_ & Hurl & Hhs). now rewrite <- Hurl, <- Hhs.
Qed.

Lemma chat_session_keeps (message : pystr) (st : State) :
  session_keeps st (snd (chat message st)).
Proof.
  split; [apply chat_same_credentials|].
  destruct (chat_posts_user_turn_twice message st) as [(evs & Ht & Hevs) _].
  eexists. split; [exact Ht|]. constructor; [now split|].
  eapply Forall_impl; [|exact Hevs]. intros ev. now destruct ev.
Qed.

Lemma after_input_session_keeps (st : State) (w : World) :
  session_keeps st (after_input st w).
Proof.
  split; [apply same_credentials_refl|]. exists [EvInput user_prompt].
  split; [reflexivity|]. repeat constructor.
Qed.

Lemma step_session_keeps (st : State) :
  session_keeps st (snd (interactive_step st)).
Proof.
  destruct (input user_prompt (world st)) as [[line|e] w] eqn:Hin.
  - rewrite (step_line st line w Hin).
    destruct (pystr_eqb (lower (strip line)) (py "exit"));
      [apply after_input_session_keeps|].
    destruct (pystr_eqb (lower (strip line)) (py "clear")).
    { split; [repeat split|]. exists [EvInput user_prompt].
      split; [reflexivity|]. repeat constructor. }
    destruct (pystr_eqb (strip line) []); [apply after_input_session_keeps|].
    pose proof (chat_session_keeps (strip line) (after_input st w)) as Hc.
    destruct (chat (strip line) (after_input st w)) as [[r|e] st'];
      cbn [snd] in *;
      (eapply session_keeps_trans; [apply after_input_session_keeps | exact Hc]).
  - rewrite (step_input_raised st e w Hin). apply after_input_session_keeps.
Qed.

Lemma mode_session_keeps (fuel : nat) (st : State) :
  session_keeps st (snd (interactive_mode fuel st)).
Proof.
  revert st. induction fuel as [|fuel IH]; intros st; cbn [interactive_mode].
  - apply session_keeps_refl.
  - pose proof (step_session_keeps st) as Hstep.
    destruct (interactive_step st) as [[[|]|e] st1]; cbn [snd] in *;
      [eapply session_keeps_trans; [exact Hstep | apply IH] | exact Hstep
      | exact Hstep].
Qed.

(** X16: in a whole session the agent's key, address and headers never
    change, and every request the session posts goes to the address and
    carries the headers (the API key among them) the agent started
    with. *)
Theorem session_posts_to_its_api (fuel : nat) (st : State) :
  let st' := snd (interactive_mode fuel st) in
  same_credentials (self st) (self st')
  /\ exists evs,
       trace st' = trace st ++ evs
       /\ Forall (posts_to (api_url (self st)) (headers (self st))) evs.
Proof.
  revert st. induction fuel as [|fuel IH]; intros st; cbn [interactive_mode].
  - apply session_keeps_refl.
  - pose proof (step_session_keeps st) as Hstep.
    destruct (interactive_step st) as [[[|]|e] st1]; cbn [snd] in *.
    + eapply session_keeps_trans; [exact Hstep | apply IH].
    + exact Hstep.
    + exact Hstep.
Qed.

Ltac appends_step :=
  match goal with
  | |- appends _ _ (bind _ _) => apply appends_bind; [|intros ?]
  | |- appends _ _ (ret _) => apply appends_ret
  | |- appends _ _ (if ?b then _ else _) => destruct b
  end.

Lemma chat_appends_written (message : pystr) :
  appends written_turn (fun _ => True) (chat message).
Proof.
  unfold chat. repeat appends_step.
  - apply appends_history_append. left. now exists message.
  - eapply appends_weaken; [| |apply appends_send]; [intros t [] | auto].
  - eapply appends_weaken; [| |apply appends_process_claude_response];
      [intros t H; right; left; exact H | auto].
  - apply appends_history_append. right. right. eexists. reflexivity.
Qed.

Lemma step_written (st : State) :
  Forall written_turn (history st) ->
  Forall written_turn (history (snd (interactive_step st))).
Proof.
  intros Hst.
  destruct (input user_prompt (world st)) as [[line|e] w] eqn:Hin.
  - rewrite (step_line st line w Hin).
    destruct (pystr_eqb (lower (strip line)) (py "exit")); [exact Hst|].
    destruct (pystr_eqb (lower (strip line)) (py "clear")); [constructor|].
    destruct (pystr_eqb (strip line) []); [exact Hst|].
    destruct (chat_appends_written (strip line) (after_input st w))
      as (added & _ & Hh & Hall & _).
    destruct (chat (strip line) (after_input st w)) as [[r|e] st'];
      cbn [snd] in *; rewrite Hh; apply Forall_app; split; assumption.
  - rewrite (step_input_raised st e w Hin). exact Hst.
Qed.

(** X17: the history only ever holds turns of the three kinds the
    program writes (a user message, a tool result, an assistant text):
    when it starts that way, it is that way after any number of rounds of
    the loop. *)
Theorem session_history_well_formed (fuel : nat) (st : State) :
  Forall written_turn (history st) ->
  Forall written_turn (history (snd (interactive_mode fuel st))).
Proof.
  revert st. induction fuel as [|fuel IH]; intros st Hst;
    cbn [interactive_mode]; [exact Hst|].
  pose proof (step_written st Hst) as Hstep.
  destruct (interactive_step st) as [[[|]|e] st1]; cbn [snd] in *.
  - now apply IH.
  - exact Hstep.
  - exact Hstep.
Qed.

End SessionProperties.

(** ** Further properties of the configuration *)

Section ConfigProperties.

Variable json_dumps : json -> Z -> pystr.
Variable json_loads : pystr -> result json.

(** X18: a configuration file that cannot be opened, or does not parse,
    counts as absent when the failure is an [Exception]: [load_config]
    answers as it would without the file.  No [Exception] ever leaves
    [load_config]. *)
Theorem load_config_survives_broken_file (env : Env) :
  (forall text e,
     config_file env = Some text ->
     read_error env = Some e
     \/ (read_error env = None /\ json_loads text = Raise e) ->
     is_Exception e = true ->
     load_config json_loads env = load_config json_loads (without_file env))
  /\ (forall e, load_config json_loads env = Raise e -> is_Exception e = false).
Proof.
  split.
  - intros text e Hfile Hbroken He. unfold load_config, without_file.
    cbn [config_file environ_key]. rewrite Hfile.
    destruct Hbroken as [Hr|[Hr Hl]]; rewrite Hr; [|rewrite Hl];
      now rewrite He.
  - intros e. unfold load_config.
    destruct (config_file env) as [text|].
    + destruct (match read_error env with
                | Some e0 => Raise e0
                | None => json_loads text
                end) as [v|e0]; [discriminate|].
      destruct (is_Exception e0) eqn:He.
      * destruct (environ_key env) as [[|c key]|]; discriminate.
      * now intros [= <-].
    + destruct (environ_key env) as [[|c key]|]; discriminate.
Qed.

(** X19: where the key comes from.  A file that opens and parses is
    returned as parsed, whatever the environment holds.  Without a file,
    a non-empty [ANTHROPIC_API_KEY] gives the configuration with exactly
    that key, and an unset or empty one gives [None]. *)
Theorem load_config_sources (env : Env) :
  (forall text v,
     config_file env = Some text -> read_error env = None ->
     json_loads text = Return v ->
     load_config json_loads env = Return v)
  /\ (config_file env = None ->
      forall c key,
        environ_key env = Some (c :: key) ->
        load_config json_loads env = Return (config_of (c :: key)))
  /\ (config_file env = None ->
      environ_key env = None \/ environ_key env = Some [] ->
      load_config json_loads env = Return JNone).
Proof.
  unfold load_config. split; [|split].
  - intros text v Hfile Hr Hl. now rewrite Hfile, Hr, Hl.
  - intros Hfile c key Hkey. now rewrite Hfile, Hkey.
  - intros Hfile [Hkey|Hkey]; now rewrite Hfile, Hkey.
Qed.

(** X20: how [create_config] fails.  When [input] or [os.makedirs]
    raises, the exception goes on to the caller and the machine is left
    as it was.  When writing the file raises an [Exception], nothing is
    raised: the function returns [None], the directory exists, and the
    file is whatever the failed write left. *)
Theorem create_config_failures (env : Env) :
  (forall e,
     create_config json_dumps (Raise e) env = (Raise e, env))
  /\ (forall line e,
        makedirs_error env = Some e ->
        create_config json_dumps (Return line) env = (Raise e, env))
  /\ (forall line e remains,
        makedirs_error env = None ->
        write_error env = Some (e, remains) ->
        is_Exception e = true ->
        create_config json_dumps (Return line) env
        = (Return JNone, with_file env remains)).
Proof.
  unfold create_config, with_file. split; [|split].
  - reflexivity.
  - intros line e Hmk. now rewrite Hmk.
  - intros line e remains Hmk Hwr He. now rewrite Hmk, Hwr, He.
Qed.

End ConfigProperties.

(** ** Properties of [main] *)

Section MainProperties.

Context `{P : Platform}.

Variable json_dumps : json -> Z -> pystr.
Variable json_loads : pystr -> result json.

Local Abbreviation program := (main json_dumps json_loads).

(** X21: [setup] contacts nobody and reads no configuration: the run asks
    for the key, is that of [create_config] on the machine, creates no
    agent, and ends by raising exactly when [create_config] raises. *)
Theorem setup_only_creates_config (fuel : nat) (prog : pystr)
  (rest : list pystr) (env : Env) (w : World) :
  let run := program fuel (prog :: py "setup" :: rest) env w in
  let created := create_config json_dumps (fst (input setup_prompt w)) env in
  events run = [EvInput setup_prompt]
  /\ agent_after run = None
  /\ env_after run = snd created
  /\ world_after run = snd (input setup_prompt w)
  /\ ending run = Exited match fst created with
                         | Return _ => Return tt
                         | Raise e => Raise e
                         end.
Proof.
  unfold main. rewrite pystr_eqb_refl. unfold main_setup.
  destruct (input setup_prompt w) as [entered w'].
  cbn [fst snd]. destruct (create_config json_dumps entered env) as [r env'].
  cbn. auto.
Qed.

Lemma main_without_setup (fuel : nat) (argv : list pystr) (env : Env)
  (w : World) :
  (forall prog first rest, argv = prog :: first :: rest -> first <> py "setup") ->
  program fuel argv env w
  = let stop (r : main_end) :=
      {| ending := r; env_after := env; world_after := w; events := [];
         agent_after := None |} in
    match load_config json_loads env with
    | Raise e => stop (Exited (Raise e))
    | Return config =>
        if negb (truthy config) then stop (Exited (Return tt))
        else
          match contains config (py "api_key") with
          | Raise e => stop (Exited (Raise e))
          | Return false => stop (Exited (Return tt))
          | Return true =>
              match getitem config (py "api_key") with
              | Raise e => stop (Exited (Raise e))
              | Return (JStr key) => main_agent fuel argv key env w
              | Return key => stop (KeyNotStr key)
              end
          end
    end.
Proof.
  intros Hargv. unfold main.
  destruct argv as [|prog [|first rest]]; try reflexivity.
  destruct (pystr_eqb first (py "setup")) eqn:E; [|reflexivity].
  apply pystr_eqb_eq in E. now destruct (Hargv prog first rest eq_refl).
Qed.

(** X22: without a key the program contacts nobody.  When [load_config]
    gives nothing (or something false, or something without an
    ["api_key"]), and the arguments are not those of [setup], [main]
    returns at once: no request, no command, no line read, no agent, the
    machine as it was. *)
Theorem without_key_nothing_happens (fuel : nat) (argv : list pystr)
  (env : Env) (w : World) (config : json) :
  (forall prog first rest, argv = prog :: first :: rest -> first <> py "setup") ->
  load_config json_loads env = Return config ->
  truthy config = false \/ contains config (py "api_key") = Return false ->
  program fuel argv env w
  = {| ending := Exited (Return tt); env_after := env; world_after := w;
       events := []; agent_after := None |}.
Proof.
  intros Hargv Hload Hno. rewrite (main_without_setup _ _ _ _ Hargv), Hload.
  cbv zeta. destruct (truthy config); [|reflexivity].
  destruct Hno as [Hno|Hno]; [discriminate|]. now rewrite Hno.
Qed.

Lemma config_with_key (config : json) (key : pystr) :
  getitem config (py "api_key") = Return (JStr key) ->
  truthy config = true /\ contains config (py "api_key") = Return true.
Proof.
  unfold getitem. destruct config; try discriminate.
  destruct (dict_get entries (py "api_key")) as [v|] eqn:Hget; [|discriminate].
  intros _. unfold contains, dict_contains. rewrite Hget.
  destruct entries; [discriminate|]. auto.
Qed.

(** X23: the one-shot mode.  With arguments that do not start with
    [setup] and a configuration whose ["api_key"] is the string [key],
    [main] runs one round of [chat], for the arguments joined by spaces,
    on a new agent with that key: the first call it makes is the one
    request of the round, to the API address with the key in its headers,
    and every other call is a command of that round.  The run ends as
    printing the round's text ends, with the [UnicodeEncodeError] of
    [print] when the console cannot show it, or with the exception the
    round raised. *)
Theorem one_shot_is_one_round (fuel : nat) (prog first : pystr)
  (rest : list pystr) (env : Env) (w : World) (config : json) (key : pystr) :
  first <> py "setup" ->
  load_config json_loads env = Return config ->
  getitem config (py "api_key") = Return (JStr key) ->
  let command := join (py " ") (first :: rest) in
  let round := chat command {| self := init key; world := w; trace := [] |} in
  let run := program fuel (prog :: first :: rest) env w in
  events run = trace (snd round)
  /\ agent_after run = Some (self (snd round))
  /\ env_after run = env
  /\ ending run = Exited match fst round with
                         | Return response => print response
                         | Raise e => Raise e
                         end
  /\ exists payload evs,
       events run
       = EvPost (py "https://api.anthropic.com/v1/messages")
           [ (py "Content-Type", py "application/json");
             (py "x-api-key", key);
             (py "anthropic-version", py "2023-06-01") ]
           payload :: evs
       /\ Forall is_run evs.
Proof.
  intros Hfirst Hload Hkey command round run.
  destruct (config_with_key _ _ Hkey) as [Htruthy Hcontains].
  assert (Hrun : run = main_agent fuel (prog :: first :: rest) key env w).
  { unfold run. rewrite main_without_setup.
    - rewrite Hload. cbv zeta. now rewrite Htruthy, Hcontains, Hkey.
    - intros prog' first' rest' [= _ <- _]. exact Hfirst. }
  rewrite Hrun. unfold main_agent. cbn [tl]. fold command. fold round.
  destruct (chat_posts_user_turn_twice command
              {| self := init key; world := w; trace := [] |})
    as [(evs & Ht & Hevs) _].
  fold round in Ht. cbn [trace self app] in Ht.
  destruct round as [[r|e] st]; cbn [fst snd events agent_after env_after ending]
    in *; (repeat split; [eexists _, evs; split; [exact Ht | exact Hevs]]).
Qed.

(** X24: a configuration that is true but not an object.  When what
    [load_config] returns is a list or a string without ["api_key"] in
    it, [main] returns quietly; in every other case (a list or a string
    containing it, a number, a boolean) [main] raises a [TypeError]
    before any agent exists. *)
Theorem config_that_is_no_object (fuel : nat) (argv : list pystr) (env : Env)
  (w : World) (config : json) :
  (forall prog first rest, argv = prog :: first :: rest -> first <> py "setup") ->
  load_config json_loads env = Return config ->
  truthy config = true ->
  (forall d, config <> JDict d) ->
  let run := program fuel argv env w in
  events run = [] /\ agent_after run = None
  /\ match contains config (py "api_key") with
     | Return false => ending run = Exited (Return tt)
     | _ => exists e,
              ending run = Exited (Raise e) /\ exn_class_of e = TypeError
     end.
Proof.
  intros Hargv Hload Htruthy Hdict run. unfold run.
  rewrite (main_without_setup _ _ _ _ Hargv), Hload. cbv zeta.
  rewrite Htruthy. cbn [negb].
  destruct config as [| b | n | bits | s | items | d];
    try discriminate; cbn [contains getitem].
  - repeat split. eexists. split; reflexivity.
  - repeat split. eexists. split; reflexivity.
  - repeat split. eexists. split; reflexivity.
  - destruct (is_substring (py "api_key") s); repeat split.
    eexists. split; reflexivity.
  - destruct (existsb (fun item => eq_str item (py "api_key")) items);
      repeat split.
    eexists. split; reflexivity.
  - now destruct (Hdict d).
Qed.

(** X25: whatever its arguments and its machine, a run of the program
    within the model (one that does not meet an ["api_key"] that is not a
    string) posts nothing unless [load_config] gave a configuration whose
    ["api_key"] is a string, and then every request it posts goes to the
    API address with that key in its headers. *)
Theorem program_posts_only_to_api (fuel : nat) (argv : list pystr)
  (env : Env) (w : World) :
  let run := program fuel argv env w in
  (exists key, ending run = KeyNotStr key)
  \/ (posted (events run) = [] /\ forall key, ending run <> KeyNotStr key)
  \/ exists config key,
       load_config json_loads env = Return config
       /\ getitem config (py "api_key") = Return (JStr key)
       /\ Forall
            (posts_to (py "https://api.anthropic.com/v1/messages")
               [ (py "Content-Type", py "application/json");
                 (py "x-api-key", key);
                 (py "anthropic-version", py "2023-06-01") ])
            (events run).
Proof.
  unfold main.
  destruct (match argv with
            | _ :: first :: _ => pystr_eqb first (py "setup")
            | _ => false
            end).
  { right. left. unfold main_setup.
    destruct (input setup_prompt w) as [entered w'].
    now destruct (create_config json_dumps entered env). }
  destruct (load_config json_loads env) as [config|e] eqn:Hload;
    [|now right; left].
  destruct (truthy config); [|now right; left]. cbn [negb].
  destruct (contains config (py "api_key")) as [[|]|e];
    try (now right; left).
  destruct (getitem config (py "api_key")) as [v|e] eqn:Hkey;
    [|now right; left].
  destruct v as [| | | |key| |]; try (left; eexists; reflexivity).
  right. right. exists config, key. split; [reflexivity|]. split; [exact Hkey|].
  unfold main_agent.
  set (st0 := {| self := init key; world := w; trace := [] |}).
  assert (Hkeeps : forall st, session_keeps st0 st ->
            Forall
              (posts_to (py "https://api.anthropic.com/v1/messages")
                 [ (py "Content-Type", py "application/json");
                   (py "x-api-key", key);
                   (py "anthropic-version", py "2023-06-01") ])
              (trace st)).
  { intros st (_ & evs & Ht & Hevs). rewrite Ht. exact Hevs. }
  destruct argv as [|prog [|first rest]].
  - pose proof (mode_session_keeps fuel st0) as H.
    destruct (interactive_mode fuel st0) as [[r|] st]; apply Hkeeps, H.
  - pose proof (mode_session_keeps fuel st0) as H.
    destruct (interactive_mode fuel st0) as [[r|] st]; apply Hkeeps, H.
  - pose proof (chat_session_keeps (join (py " ") (tl (prog :: first :: rest)))
                  st0) as H.
    destruct (chat _ st0) as [[r|e] st]; apply Hkeeps, H.
Qed.

End MainProperties.

(** ** Worked examples of the further properties *)

Lemma process_never_raises_exception_witness :
  (let response := JDict (sample_body [sample_bash "toolu_1" "sleep 60"]) in
   let st := sample_state [] [Raise sample_interrupt] in
   let e := sample_interrupt in
   fst (process_claude_response response st) = Raise e
   /\ (((exists d, response = JDict d) /\ is_Exception e = false)
       \/ ((forall d, response <> JDict d)
           /\ exn_class_of e = TypeError
           /\ snd (process_claude_response response st) = st)))
  /\ (let response := JInt 5 in
      let st := sample_state [] [Return sample_done] in
      let e := mkExn TypeError (py "argument of type 'int' is not iterable") in
      fst (process_claude_response response st) = Raise e
      /\ (((exists d, response = JDict d) /\ is_Exception e = false)
          \/ ((forall d, response <> JDict d)
              /\ exn_class_of e = TypeError
              /\ snd (process_claude_response response st) = st))).
Proof.
  split; intros response st e;
    (split; [vm_compute; reflexivity|]);
    apply (process_never_raises_exception (P := scripted) response st e);
    vm_compute; reflexivity.
Defined.

Lemma chat_never_raises_request_exception_witness :
  (let st := sample_state [Raise sample_value_error] [] in
   let e := sample_value_error in
   fst (chat (py "hi") st) = Raise e
   /\ let st1 := snd (history_append (user_turn (py "hi")) st) in
      is_RequestException e = false
      /\ (fst (send_message_to_claude (py "hi") st1) = Raise e
          \/ exists response st2,
               send_message_to_claude (py "hi") st1 = (Return response, st2)
               /\ fst (process_claude_response response st2) = Raise e
               /\ (is_Exception e = false
                   \/ (exn_class_of e = TypeError
                       /\ forall d, response <> JDict d))))
  /\ (let st := sample_state [Return (mkResponse 200 [] (Return (JInt 5)))] [] in
      let e := mkExn TypeError (py "argument of type 'int' is not iterable") in
      fst (chat (py "hi") st) = Raise e
      /\ let st1 := snd (history_append (user_turn (py "hi")) st) in
         is_RequestException e = false
         /\ (fst (send_message_to_claude (py "hi") st1) = Raise e
             \/ exists response st2,
                  send_message_to_claude (py "hi") st1 = (Return response, st2)
                  /\ fst (process_claude_response response st2) = Raise e
                  /\ (is_Exception e = false
                      \/ (exn_class_of e = TypeError
                          /\ forall d, response <> JDict d)))).
Proof.
  split; intros st e;
    (split; [vm_compute; reflexivity|]);
    apply (chat_never_raises_request_exception (P := scripted) (py "hi") st e);
    vm_compute; reflexivity.
Defined.

Lemma malformed_response_reported_witness :
  let st := sample_state [] [] in
  process_claude_response (JDict [(py "role", JStr (py "assistant"))]) st
  = (Return (CROSS_MARK ++ py " Error processing response: "
             ++ SQUOTE ++ py "content" ++ SQUOTE), st)
  /\ process_claude_response (JDict [(py "content", JNone)]) st
     = (Return (CROSS_MARK ++ py " Error processing response: "
                ++ py "'NoneType' object is not iterable"), st).
Proof.
  intros st. split.
  - apply (proj1 (malformed_response_reported (P := scripted)
                    [(py "role", JStr (py "assistant"))] st eq_refl)).
    reflexivity.
  - apply (proj2 (malformed_response_reported (P := scripted)
                    [(py "content", JNone)] st eq_refl)
             JNone
             (mkExn TypeError (py "'NoneType' object is not iterable")));
      reflexivity.
Defined.

Lemma other_blocks_ignored_witness :
  let st := sample_state [] [Return sample_done] in
  process_block
    (JDict [(py "type", JStr (py "thinking")); (py "thinking", JStr (py "hm"))])
    (py "so far") st
  = (Return (py "so far"), st)
  /\ process_block
       (JDict [(py "type", JStr (py "tool_use"));
               (py "id", JStr (py "toolu_2"));
               (py "name", JStr (py "web_search"));
               (py "input", JDict [(py "query", JStr (py "proxmox"))])])
       (py "so far") st
     = (Return (py "so far"), st).
Proof.
  intros st. split.
  - apply (other_blocks_ignored (P := scripted) _ (JStr (py "thinking")));
      [reflexivity | reflexivity | left; reflexivity].
  - apply (other_blocks_ignored (P := scripted) _ (JStr (py "tool_use")));
      [reflexivity | reflexivity
      | right; exists (JStr (py "web_search")); split; reflexivity].
Defined.

Lemma command_without_id_witness :
  let st := sample_state [] [Return sample_done] in
  process_block (sample_bash_without_id "echo hi") [] st
  = (Return ([] ++ CROSS_MARK ++ py " Error executing command: "
             ++ SQUOTE ++ py "id" ++ SQUOTE ++ LF),
     @mkState scripted (self st) (mkScript [] [] [])
       (trace st ++ [EvRun (JStr (py "echo hi")) 30])).
Proof.
  intros st.
  apply (command_without_id (P := scripted) _
           (JDict [(py "command", JStr (py "echo hi"))])
           (JStr (py "echo hi")) [] st sample_done (mkScript [] [] []));
    try reflexivity.
  unfold Qle; simpl; lia.
Defined.

Lemma later_failure_keeps_tool_result_witness :
  let response := sample_body [sample_bash "toolu_1" "echo hi"; JDict []] in
  let st := sample_state [] [Return sample_done] in
  process_claude_response (JDict response) st
  = (Return (CROSS_MARK ++ py " Error processing response: "
             ++ SQUOTE ++ py "type" ++ SQUOTE),
     with_history st
       (history st
        ++ [tool_result_turn (JStr (py "toolu_1"))
              (tool_result_content sample_done)])
       (mkScript [] [] [])
       (trace st ++ [EvRun (JStr (py "echo hi")) 30])).
Proof.
  intros response st.
  apply (later_failure_keeps_tool_result (P := scripted) response
           (sample_bash "toolu_1" "echo hi") (JDict [])
           (JStr (py "toolu_1")) (JStr (py "echo hi")) [] st sample_done
           (mkScript [] [] [])
           (mkExn KeyError (SQUOTE ++ py "type" ++ SQUOTE)));
    try reflexivity.
  - eexists _, _. repeat split; reflexivity.
  - unfold Qle; simpl; lia.
Defined.

Lemma text_only_round_witness :
  let st := sample_state [sample_ok [sample_text "Hello"; sample_text "Bye "]] [] in
  let result := strip (join LF [py "Hello"; py "Bye "]) in
  fst (chat (py "hi") st) = Return result
  /\ history (snd (chat (py "hi") st))
     = history st ++ user_turn (py "hi")
                     :: (if startswith result CROSS_MARK then []
                         else [assistant_turn result])
  /\ runs (trace (snd (chat (py "hi") st))) = runs (trace st).
Proof.
  intros st.
  eapply (text_only_round (P := scripted) (py "hi") st).
  - vm_compute. reflexivity.
  - reflexivity.
  - reflexivity.
  - repeat constructor; eexists; repeat split; reflexivity.
Defined.

Lemma empty_answer_recorded_witness :
  let st := sample_state [sample_ok []] [] in
  fst (chat (py "hi") st) = Return []
  /\ history (snd (chat (py "hi") st))
     = history st ++ [user_turn (py "hi"); assistant_turn []].
Proof.
  intros st.
  eapply (empty_answer_recorded (P := scripted) (py "hi") st).
  - vm_compute. reflexivity.
  - reflexivity.
  - reflexivity.
  - reflexivity.
Defined.

Lemma commands_bounded_by_blocks_witness :
  let blocks := [sample_text "Checking."; sample_bash "toolu_1" "echo hi"] in
  let st := sample_state [] [Return sample_done] in
  exists added evs,
    history (snd (process_claude_response (JDict (sample_body blocks)) st))
    = history st ++ added
    /\ trace (snd (process_claude_response (JDict (sample_body blocks)) st))
       = trace st ++ evs
    /\ Forall is_tool_result_turn added
    /\ Forall is_run evs
    /\ (List.length added <= List.length evs <= List.length blocks)%nat.
Proof.
  intros blocks st.
  apply (commands_bounded_by_blocks (P := scripted) (sample_body blocks) blocks st).
  reflexivity.
Defined.

Lemma send_passes_through_witness :
  let body := JDict (sample_body [sample_text "Hello"]) in
  fst (send_message_to_claude (py "hi")
         (sample_state [sample_ok [sample_text "Hello"]] []))
  = Return body
  /\ fst (send_message_to_claude (py "hi")
            (sample_state [Raise sample_value_error] []))
     = Raise sample_value_error
  /\ fst (send_message_to_claude (py "hi")
            (sample_state
               [Return (mkResponse 200 [] (Raise sample_value_error))] []))
     = Raise sample_value_error.
Proof.
  intros body. split; [|split].
  - rewrite (proj1 (send_passes_through (P := scripted) (py "hi")
                      (sample_state [sample_ok [sample_text "Hello"]] []))
               (mkResponse 200 [] (Return body)) (mkScript [] [] []) body);
      [reflexivity | reflexivity | simpl; lia | reflexivity].
  - apply (proj1 (proj2 (send_passes_through (P := scripted) (py "hi")
                           (sample_state [Raise sample_value_error] [])))
             sample_value_error (mkScript [] [] []));
      reflexivity.
  - apply (proj2 (proj2 (send_passes_through (P := scripted) (py "hi")
                           (sample_state
                              [Return (mkResponse 200 []
                                         (Raise sample_value_error))] [])))
             (mkResponse 200 [] (Raise sample_value_error))
             (mkScript [] [] []) sample_value_error);
      [reflexivity | simpl; lia | reflexivity | reflexivity].
Defined.

Lemma session_never_raises_exception_witness :
  let st := sample_prompt [] [] [Return (py "   "); Raise sample_system_exit] in
  fst (interactive_mode 5 st) = Some (Raise sample_system_exit)
  /\ is_Exception sample_system_exit = false
  /\ is_KeyboardInterrupt sample_system_exit = false.
Proof.
  intros st. split; [vm_compute; reflexivity|].
  apply (session_never_raises_exception (P := scripted) 5 st).
  vm_compute. reflexivity.
Defined.

Lemma control_lines_stay_local_witness :
  (let st := sample_prompt [] [] [Return (py "  EXIT ")] in
   interactive_mode 1 st
   = (Some (Return tt), after_input st (mkScript [] [] [])))
  /\ (let st := sample_session in
      interactive_step st
      = (Return Continue,
         with_history st []
           (mkScript [sample_ok [sample_text "Hello"]] [] [Return (py "hi")])
           (trace st ++ [EvInput user_prompt])))
  /\ (let st := sample_prompt [] [] [Return (py "   ")] in
      interactive_step st = (Return Continue, after_input st (mkScript [] [] []))).
Proof.
  split; [|split].
  - intros st.
    apply (proj1 (control_lines_stay_local (P := scripted) st (py "  EXIT ")
                    (mkScript [] [] []) eq_refl)).
    reflexivity.
  - intros st.
    apply (proj1 (proj2 (control_lines_stay_local (P := scripted) st (py "clear")
                           (mkScript [sample_ok [sample_text "Hello"]] []
                              [Return (py "hi")]) eq_refl)));
      [discriminate | reflexivity].
  - intros st.
    apply (proj2 (proj2 (control_lines_stay_local (P := scripted) st (py "   ")
                           (mkScript [] [] []) eq_refl)));
      [discriminate | discriminate | reflexivity].
Defined.

Lemma interrupt_ends_session_witness :
  (let st := sample_prompt [] [] [Raise sample_interrupt] in
   interactive_mode 1 st
   = (Some (Return tt), after_input st (mkScript [] [] [])))
  /\ (let st :=
        sample_prompt [sample_ok [sample_bash "toolu_1" "sleep 60"]]
          [Raise sample_interrupt] [Return (py "wait")] in
      let st' :=
        snd (chat (py "wait")
               (after_input st
                  (mkScript [sample_ok [sample_bash "toolu_1" "sleep 60"]]
                     [Raise sample_interrupt] []))) in
      interactive_mode 1 st = (Some (Return tt), st')
      /\ exists added,
           history st' = history st ++ user_turn (strip (py "wait")) :: added).
Proof.
  split.
  - intros st.
    apply (proj1 (interrupt_ends_session (P := scripted) 0 st)
             sample_interrupt (mkScript [] [] []));
      reflexivity.
  - intros st st'.
    apply (proj2 (interrupt_ends_session (P := scripted) 0 st)
             (py "wait")
             (mkScript [sample_ok [sample_bash "toolu_1" "sleep 60"]]
                [Raise sample_interrupt] [])
             sample_interrupt st');
      [reflexivity | discriminate | discriminate | discriminate
      | vm_compute; reflexivity | reflexivity].
Defined.

Lemma closed_input_never_ends_witness :
  let st := sample_prompt [] [] [] in
  fst (interactive_mode 100 st) = None
  /\ history (snd (interactive_mode 100 st)) = history st
  /\ posted (trace (snd (interactive_mode 100 st))) = posted (trace st)
  /\ runs (trace (snd (interactive_mode 100 st))) = runs (trace st).
Proof.
  intros st.
  apply (closed_input_never_ends (P := scripted) (fun w => lines w = [])).
  - intros w Hw.
    exists (mkExn OtherException (py "EOF when reading a line")), w.
    simpl. rewrite Hw. auto.
  - reflexivity.
Defined.

Lemma session_history_well_formed_witness :
  Forall written_turn (history sample_session)
  /\ Forall written_turn (history (snd (interactive_mode 3 sample_session))).
Proof.
  assert (H : Forall written_turn (history sample_session)).
  { cbv [history sample_session self conversation_history].
    apply Forall_cons; [left; eexists; reflexivity|].
    apply Forall_cons; [right; right; eexists; reflexivity|].
    apply Forall_nil. }
  split; [exact H|].
  apply (session_history_well_formed (P := scripted) 3 sample_session H).
Defined.

Lemma load_config_survives_broken_file_witness :
  let env := sample_machine (Some (py "{not json")) (Some (py "sk-env")) in
  load_config sample_loads env = load_config sample_loads (without_file env)
  /\ load_config sample_loads env = Return (config_of (py "sk-env")).
Proof.
  intros env. split; [|reflexivity].
  apply (proj1 (load_config_survives_broken_file sample_loads env)
           (py "{not json") (mkExn OtherException (py "Expecting value")));
    [reflexivity | right; split; reflexivity | reflexivity].
Defined.

Lemma load_config_sources_witness :
  load_config sample_loads
    (sample_machine (Some (sample_dumps (config_of (py "sk-file")) 2))
       (Some (py "sk-env")))
  = Return (config_of (py "sk-file"))
  /\ load_config sample_loads (sample_machine None (Some (py "sk-env")))
     = Return (config_of (py "sk-env"))
  /\ load_config sample_loads (sample_machine None (Some [])) = Return JNone.
Proof.
  split; [|split].
  - apply (proj1 (load_config_sources sample_loads
                    (sample_machine
                       (Some (sample_dumps (config_of (py "sk-file")) 2))
                       (Some (py "sk-env"))))
             (sample_dumps (config_of (py "sk-file")) 2));
      reflexivity.
  - apply (proj1 (proj2 (load_config_sources sample_loads
                           (sample_machine None (Some (py "sk-env")))))
             eq_refl 115%N (py "k-env")).
    reflexivity.
  - apply (proj2 (proj2 (load_config_sources sample_loads
                           (sample_machine None (Some []))))
             eq_refl).
    right. reflexivity.
Defined.

Lemma create_config_failures_witness :
  let denied := mkExn OtherException (py "[Errno 13] Permission denied") in
  let no_dir :=
    {| config_file := None; config_dir := false; environ_key := None;
       makedirs_error := Some denied; write_error := None;
       read_error := None |} in
  let no_write :=
    {| config_file := Some (py "{}"); config_dir := true; environ_key := None;
       makedirs_error := None; write_error := Some (denied, Some (py "{}"));
       read_error := None |} in
  create_config sample_dumps (Return (py "sk-1")) no_dir = (Raise denied, no_dir)
  /\ create_config sample_dumps (Return (py "sk-1")) no_write
     = (Return JNone, with_file no_write (Some (py "{}"))).
Proof.
  intros denied no_dir no_write. split.
  - apply (proj1 (proj2 (create_config_failures sample_dumps no_dir))
             (py "sk-1") denied).
    reflexivity.
  - apply (proj2 (proj2 (create_config_failures sample_dumps no_write))
             (py "sk-1") denied (Some (py "{}")));
      reflexivity.
Defined.

Lemma without_key_nothing_happens_witness :
  let w := mkScript [sample_ok [sample_text "Hello"]] [] [Return (py "hi")] in
  main (P := scripted) sample_dumps sample_loads 5 [py "proxmox_vm_agent.py"]
    (sample_machine None None) w
  = @mkRun scripted (Exited (Return tt)) (sample_machine None None) w [] None.
Proof.
  intros w.
  apply (without_key_nothing_happens (P := scripted) sample_dumps sample_loads
           5 [py "proxmox_vm_agent.py"] (sample_machine None None) w JNone).
  - intros prog first rest H. discriminate H.
  - reflexivity.
  - left. reflexivity.
Defined.

Lemma one_shot_is_one_round_witness :
  let env :=
    sample_machine (Some (sample_dumps (config_of (py "sk-file")) 2)) None in
  let w := mkScript [sample_ok [sample_text "Hello"]] [] [] in
  let run :=
    main (P := scripted) sample_dumps sample_loads 0
      [py "proxmox_vm_agent.py"; py "list"; py "vms"] env w in
  posted (events run)
  = [payload_of [user_turn (py "list vms")] (py "list vms")]
  /\ exists payload evs,
       events run
       = EvPost (py "https://api.anthropic.com/v1/messages")
           [ (py "Content-Type", py "application/json");
             (py "x-api-key", py "sk-file");
             (py "anthropic-version", py "2023-06-01") ]
           payload :: evs
       /\ Forall is_run evs.
Proof.
  intros env w run. split; [vm_compute; reflexivity|].
  apply (one_shot_is_one_round (P := scripted) sample_dumps sample_loads 0
           (py "proxmox_vm_agent.py") (py "list") [py "vms"] env w
           (config_of (py "sk-file")) (py "sk-file"));
    [discriminate | reflexivity | reflexivity].
Defined.

Lemma config_that_is_no_object_witness :
  let loads := fun _ : pystr => Return (JList [JStr (py "api_key")]) in
  let run :=
    main (P := scripted) sample_dumps loads 5 [py "proxmox_vm_agent.py"]
      (sample_machine (Some (py "[...]")) None) (mkScript [] [] []) in
  events run = [] /\ agent_after run = None
  /\ exists e, ending run = Exited (Raise e) /\ exn_class_of e = TypeError.
Proof.
  intros loads run.
  apply (config_that_is_no_object (P := scripted) sample_dumps loads 5
           [py "proxmox_vm_agent.py"] (sample_machine (Some (py "[...]")) None)
           (mkScript [] [] []) (JList [JStr (py "api_key")])).
  - intros prog first rest H. discriminate H.
  - reflexivity.
  - reflexivity.
  - discriminate.
Defined.
